(** * eink_composer: the layer compositing engine

    A shallow embedding of [src/eink_composer/composer.py] (the layer model,
    the layer management operations and [EinkComposer.render]) together with
    the properties of the compositing engine stated in the specification.

    Conventions.
    - A Python [int] is a [Z]; a [float] is a binary64 [float]; a [str] is a
      [string]; [Optional[T]] is [option T].
    - A two-dimensional [uint8] numpy array is a [grid]: the list of its rows.
      Its shape is read off the list, so an array with no row has width 0
      here (numpy would remember its width).
    - A raised exception is an [Err]; code that writes the canvas runs in the
      monad [M], which keeps the canvas as it was when the exception was
      raised. *)

From Stdlib Require Import ZArith Floats Lia.
From stdpp Require Import base list strings numbers.

#[local] Open Scope Z_scope.

(** ** Exceptions *)

Inductive error : Set :=
| InvalidDimension   (* resize to a non-positive target *)
| InvalidInput       (* an empty grid handed to a transform or a dither *)
| LoadError          (* Image.open failed *)
| ValueError         (* numpy: could not broadcast input array *)
| IndexError.        (* numpy: index out of bounds *)

Inductive result (A : Type) : Type :=
| Ok (a : A)
| Err (e : error).
Arguments Ok {A} a.
Arguments Err {A} e.

#[export] Instance result_ret : MRet result := fun A a => Ok a.

#[export] Instance result_bind : MBind result := fun A B k r =>
  match r with
  | Ok a => k a
  | Err e => Err e
  end.

(** ** numpy arrays *)

(** A two-dimensional array of samples, as the list of its rows. *)
Abbreviation grid := (list (list Z)).

Module np.

Definition nrows (g : grid) : nat := length g.

Definition ncols (g : grid) : nat :=
  match g with
  | [] => 0%nat
  | r :: _ => length r
  end.

(** [g.shape], as the pair (rows, columns). *)
Definition shape (g : grid) : Z * Z := (Z.of_nat (nrows g), Z.of_nat (ncols g)).

(** [shape1 != shape2] on tuples of ints. *)
Definition shape_neq (s1 s2 : Z * Z) : bool :=
  negb ((s1.1 =? s2.1) && (s1.2 =? s2.2)).

(** A value stored into a [uint8] array.  A sample copied from another array
    is cast, and wraps modulo 256, in every release of numpy.  A Python int
    (a color) wraps too before numpy 2.0; from 2.0 on, an int outside 0..255
    raises OverflowError instead.  The model wraps; what is stated about a
    color that is stored assumes it in 0..255, where the releases agree. *)
Definition uint8 (v : Z) : Z := v mod 256.

(** The samples of the array are values of a [uint8] array. *)
Definition in_range (g : grid) : Prop :=
  Forall (Forall (fun v => 0 <= v <= 255)) g.

(** [np.full((h, w), v, dtype=np.uint8)]. *)
Definition full (h w : Z) (v : Z) : grid :=
  replicate (Z.to_nat h) (replicate (Z.to_nat w) (uint8 v)).

(** [g.fill(v)], in place: every sample becomes [v], the shape stays. *)
Definition fill (g : grid) (v : Z) : grid :=
  fmap (fun r => replicate (length r) (uint8 v)) g.

(** [g.copy()]. *)
Definition copy (g : grid) : grid := g.

(** One bound of a slice [a:b] over an axis of length [n]: a negative bound
    counts from the end, and the result is clamped to [0, n]. *)
Definition slice_bound (n : nat) (i : Z) : nat :=
  if i <? 0 then Z.to_nat (Z.max 0 (i + Z.of_nat n))
  else Z.to_nat (Z.min i (Z.of_nat n)).

(** An integer index over an axis of length [n]: a negative index counts
    from the end; out of range raises. *)
Definition index (n : nat) (i : Z) : result nat :=
  if (0 <=? i) && (i <? Z.of_nat n) then Ok (Z.to_nat i)
  else if (- Z.of_nat n <=? i) && (i <? 0) then Ok (Z.to_nat (i + Z.of_nat n))
  else Err IndexError.

(** [g[:a, :b]]. *)
Definition getitem_upto (g : grid) (a b : Z) : grid :=
  take (slice_bound (nrows g) a) (fmap (take (slice_bound (ncols g) b)) g).

(** The sample of [g] at row [i], column [j], when there is one. *)
Definition pixel (g : grid) (i j : nat) : option Z :=
  row ← g !! i; row !! j.

(** Overwrite the block of [nr] rows from [r0] and [nc] columns from [c0]
    with [f], given in block coordinates; the part of the block outside
    the array does not exist. *)
Definition assign_block (g : grid) (r0 nr c0 nc : nat) (f : nat -> nat -> Z) : grid :=
  imap (fun i row =>
          if (r0 <=? i)%nat && (i <? r0 + nr)%nat
          then imap (fun j v =>
                       if (c0 <=? j)%nat && (j <? c0 + nc)%nat
                       then f (i - r0)%nat (j - c0)%nat
                       else v) row
          else row) g.

(** numpy's broadcasting rule for an assignment into an [nr] x [nc] block:
    each axis of the source has the length of the block or length 1. *)
Definition broadcastable (src : grid) (nr nc : nat) : bool :=
  ((nrows src =? nr)%nat || (nrows src =? 1)%nat)
  && ((ncols src =? nc)%nat || (ncols src =? 1)%nat).

Definition broadcast_at (src : grid) (i j : nat) : Z :=
  let i' := if (nrows src =? 1)%nat then 0%nat else i in
  let j' := if (ncols src =? 1)%nat then 0%nat else j in
  nth j' (nth i' src []) 0.

(** [g[y0:y1, x0:x1] = src]: the shapes are checked before anything is
    written, and the samples are cast to the type of [g]. *)
Definition setitem_block (g : grid) (y0 y1 x0 x1 : Z) (src : grid) : result grid :=
  let r0 := slice_bound (nrows g) y0 in
  let r1 := slice_bound (nrows g) y1 in
  let c0 := slice_bound (ncols g) x0 in
  let c1 := slice_bound (ncols g) x1 in
  let nr := (r1 - r0)%nat in
  let nc := (c1 - c0)%nat in
  if broadcastable src nr nc
  then Ok (assign_block g r0 nr c0 nc (fun i j => uint8 (broadcast_at src i j)))
  else Err ValueError.

(** [g[y0:y1, x0:x1] = v] for a scalar [v]. *)
Definition setitem_block_scalar (g : grid) (y0 y1 x0 x1 : Z) (v : Z) : grid :=
  let r0 := slice_bound (nrows g) y0 in
  let r1 := slice_bound (nrows g) y1 in
  let c0 := slice_bound (ncols g) x0 in
  let c1 := slice_bound (ncols g) x1 in
  assign_block g r0 (r1 - r0) c0 (c1 - c0) (fun _ _ => uint8 v).

(** [g[y, x0:x1] = v]. *)
Definition setitem_row_scalar (g : grid) (y x0 x1 : Z) (v : Z) : result grid :=
  match index (nrows g) y with
  | Err e => Err e
  | Ok r =>
      let c0 := slice_bound (ncols g) x0 in
      let c1 := slice_bound (ncols g) x1 in
      Ok (assign_block g r 1 c0 (c1 - c0) (fun _ _ => uint8 v))
  end.

(** [g[y0:y1, x] = v]. *)
Definition setitem_col_scalar (g : grid) (y0 y1 x : Z) (v : Z) : result grid :=
  match index (ncols g) x with
  | Err e => Err e
  | Ok c =>
      let r0 := slice_bound (nrows g) y0 in
      let r1 := slice_bound (nrows g) y1 in
      Ok (assign_block g r0 (r1 - r0) c 1 (fun _ _ => uint8 v))
  end.

(** The array has [h] rows of [w] samples each. *)
Definition has_shape (g : grid) (h w : nat) : Prop :=
  length g = h /\ Forall (fun r => length r = w) g.

(** Two arrays with the same row lengths. *)
Definition same_shape (g1 g2 : grid) : Prop :=
  length <$> g1 = length <$> g2.

End np.

(** ** Transform primitives ([image_ops.py]) *)

Module image_ops.

Inductive resize_mode : Set := Stretch | Fit | Crop.

(** Modelled from the spec: [image_ops.flip_horizontal] is not among the
    sources; section 4.1: reverse the columns. *)
Definition flip_horizontal (image : grid) : grid := reverse <$> image.

(** Modelled from the spec: [image_ops.flip_vertical] is not among the
    sources; section 4.1: reverse the rows. *)
Definition flip_vertical (image : grid) : grid := reverse image.

(** Modelled from the spec: [image_ops.rotate_ccw_90] is not among the
    sources; section 4.1: one counter-clockwise quarter turn, width and
    height swapped: the new row [i] is the old column [w - 1 - i], read from
    top to bottom. *)
Definition rotate_ccw_90 (image : grid) : grid :=
  let w := np.ncols image in
  fmap (fun i => fmap (fun row => nth (w - 1 - i) row 0) image) (seq 0 w).

(** Modelled from the spec: [image_ops.invert_colors] is not among the
    sources; section 4.1: pixel to 255 - pixel. *)
Definition invert_colors (image : grid) : grid :=
  fmap (fun row : list Z => fmap (fun p => 255 - p) row) image.

(** Modelled from the spec: the resampling step of [resize_image], section
    4.1: nearest neighbour, to [th] rows of [tw] samples. *)
Definition resample (image : grid) (th tw : nat) : grid :=
  let h := np.nrows image in
  let w := np.ncols image in
  fmap (fun i =>
         let row := nth (i * h / th) image [] in
         fmap (fun j => nth (j * w / tw) row 0) (seq 0 tw))
      (seq 0 th).

(** Modelled from the spec: the scale of the fit policy, section 4.1: the
    size of an [h] x [w] image scaled, aspect ratio kept, to fit inside
    [th] x [tw]. *)
Definition fit_size (h w th tw : nat) : nat * nat :=
  if (tw * h <=? th * w)%nat
  then (Nat.max 1 (h * tw / w), tw)
  else (th, Nat.max 1 (w * th / h)).

(** Modelled from the spec: the scale of the crop policy, section 4.1: the
    size of an [h] x [w] image scaled, aspect ratio kept, to cover
    [th] x [tw]. *)
Definition cover_size (h w th tw : nat) : nat * nat :=
  if (th * w <=? tw * h)%nat
  then ((h * tw + w - 1) / w, tw)%nat
  else (th, (w * th + h - 1) / h)%nat.

(** Modelled from the spec: the padding of the fit policy, section 4.1:
    [scaled], of [nh] rows of [nw] samples, centred on a white [th] x [tw]
    box. *)
Definition paste_centered (scaled : grid) (nh nw th tw : nat) : grid :=
  let top := ((th - nh) / 2)%nat in
  let left := ((tw - nw) / 2)%nat in
  replicate top (replicate tw 255)
  ++ fmap (fun r => replicate left 255 ++ r ++ replicate (tw - left - nw) 255) scaled
  ++ replicate (th - top - nh) (replicate tw 255).

(** Modelled from the spec: the anchor of the crop policy, section 4.1:
    where the crop window starts along one axis: at the anchor, clamped so
    that the window stays inside the scaled image, or centred. *)
Definition crop_offset (anchor : option Z) (scaled target : nat) : nat :=
  let slack := (scaled - target)%nat in
  match anchor with
  | None => (slack / 2)%nat
  | Some a => Z.to_nat (Z.max 0 (Z.min a (Z.of_nat slack)))
  end.

(** Modelled from the spec: [image_ops.resize_image] is not among the
    sources; section 4.1: it fails with InvalidDimension when a target is not
    positive; stretch resamples to exactly the target; fit scales the image
    to fit inside the target and pads with white, centred; crop scales it to
    cover the target and cuts the window at the clamped anchor, or centred.
    An image with no sample cannot be resampled: InvalidInput (section 7). *)
Definition resize_image (image : grid) (target_width target_height : Z)
    (mode : resize_mode) (crop_x crop_y : option Z) : result grid :=
  if (target_width <=? 0) || (target_height <=? 0) then Err InvalidDimension
  else if (np.nrows image =? 0)%nat || (np.ncols image =? 0)%nat then Err InvalidInput
  else
    let h := np.nrows image in
    let w := np.ncols image in
    let th := Z.to_nat target_height in
    let tw := Z.to_nat target_width in
    match mode with
    | Stretch => Ok (resample image th tw)
    | Fit =>
        let '(nh, nw) := fit_size h w th tw in
        Ok (paste_centered (resample image nh nw) nh nw th tw)
    | Crop =>
        let '(nh, nw) := cover_size h w th tw in
        let ox := crop_offset crop_x nw tw in
        let oy := crop_offset crop_y nh th in
        Ok (take th (drop oy (fmap (fun r => take tw (drop ox r)) (resample image nh nw))))
    end.

(** Modelled from the spec: what [resize_image] puts at row [i], column [j]
    of a result of [th] rows by [tw] columns, said sample by sample from
    section 4.1: stretch takes the nearest sample of the image; fit takes it
    inside the centred box of the scaled image, and white around that box;
    crop takes it through the window cut in the scaled image. *)
Definition resized_sample (image : grid) (th tw : nat) (mode : resize_mode)
    (crop_x crop_y : option Z) (i j : nat) : option Z :=
  let h := np.nrows image in
  let w := np.ncols image in
  match mode with
  | Stretch => np.pixel image (i * h / th) (j * w / tw)
  | Fit =>
      let '(nh, nw) := fit_size h w th tw in
      let top := ((th - nh) / 2)%nat in
      let left := ((tw - nw) / 2)%nat in
      if ((top <=? i)%nat && (i <? top + nh)%nat)
         && ((left <=? j)%nat && (j <? left + nw)%nat)
      then np.pixel image ((i - top) * h / nh) ((j - left) * w / nw)
      else Some 255
  | Crop =>
      let '(nh, nw) := cover_size h w th tw in
      let oy := crop_offset crop_y nh th in
      let ox := crop_offset crop_x nw tw in
      np.pixel image ((oy + i) * h / nh) ((ox + j) * w / nw)
  end.

End image_ops.

(** ** Dithering ([dithering.py]) *)

Module dithering.

Inductive dither_mode : Set := FloydSteinberg | Threshold | NoDither.

(** Modelled from the spec: [dithering.threshold_dither] is not among the
    sources; section 4.2: pixel to 255 if pixel > 128 else 0; an empty grid
    is refused with InvalidInput.  [EinkComposer.save] applies the same
    strict rule, [255 if x > 128 else 0], for its monochrome output. *)
Definition threshold_dither (image : grid) : result grid :=
  if (np.nrows image =? 0)%nat || (np.ncols image =? 0)%nat then Err InvalidInput
  else Ok (fmap (fun row : list Z => fmap (fun p => if p >? 128 then 255 else 0) row) image).

End dithering.

(** ** The layer model *)

Module ImageLayer.
Record t := mk {
  image_path : option string;
  image_data : option grid;
  resize_mode : image_ops.resize_mode;
  dither_mode : dithering.dither_mode;
  brightness : float;
  contrast : float;
  rotate : Z;
  flip_h : bool;
  flip_v : bool;
  crop_x : option Z;
  crop_y : option Z
}.
End ImageLayer.

Module TextLayer.
Record t := mk {
  text : string;
  color : Z
}.
End TextLayer.

Module RectangleLayer.
Record t := mk {
  width : Z;
  height : Z;
  filled : bool;
  color : Z
}.
End RectangleLayer.

(** The class of a layer, with the fields its class adds to [Layer]. *)
Inductive layer_class : Type :=
| Image (p : ImageLayer.t)
| Text (p : TextLayer.t)
| Rectangle (p : RectangleLayer.t).

Module Layer.
Record t := mk {
  id : string;
  type : string;
  visible : bool;
  x : Z;
  y : Z;
  class : layer_class
}.
End Layer.

(** ** The composer: construction and layer management *)

Module EinkComposer.
Record t := mk {
  width : Z;
  height : Z;
  layers : list Layer.t;
  canvas : grid
}.
End EinkComposer.

Definition set_layers (self : EinkComposer.t) (ls : list Layer.t) : EinkComposer.t :=
  EinkComposer.mk (EinkComposer.width self) (EinkComposer.height self) ls
                  (EinkComposer.canvas self).

Definition set_canvas (self : EinkComposer.t) (c : grid) : EinkComposer.t :=
  EinkComposer.mk (EinkComposer.width self) (EinkComposer.height self)
                  (EinkComposer.layers self) c.

(** [EinkComposer(width, height)]: no layer, a white canvas (numpy refuses a
    negative dimension; a composer has none). *)
Definition EinkComposer_init (width height : Z) : EinkComposer.t :=
  EinkComposer.mk width height [] (np.full height width 255).

(** [ImageLayer(id=..., x=..., y=..., ...)]: [type] is fixed by the class. *)
Definition new_ImageLayer (id : string) (visible : bool) (x y : Z) (p : ImageLayer.t) : Layer.t :=
  Layer.mk id "image" visible x y (Image p).

Definition new_TextLayer (id : string) (visible : bool) (x y : Z) (p : TextLayer.t) : Layer.t :=
  Layer.mk id "text" visible x y (Text p).

Definition new_RectangleLayer (id : string) (visible : bool) (x y : Z) (p : RectangleLayer.t) : Layer.t :=
  Layer.mk id "rectangle" visible x y (Rectangle p).

Definition add_image_layer (self : EinkComposer.t) (layer_id : string)
    (image_path : string) (x y : Z)
    (resize_mode : image_ops.resize_mode) (dither_mode : dithering.dither_mode)
    (brightness contrast : float) (rotate : Z) (flip_h flip_v : bool)
    (crop_x crop_y : option Z) : string * EinkComposer.t :=
  let layer :=
    new_ImageLayer layer_id true x y
      (ImageLayer.mk (Some image_path) None resize_mode dither_mode brightness
                     contrast rotate flip_h flip_v crop_x crop_y) in
  (layer_id, set_layers self (EinkComposer.layers self ++ [layer])).

Definition add_text_layer (self : EinkComposer.t) (layer_id : string)
    (text : string) (x y : Z) (color : Z) : string * EinkComposer.t :=
  let layer := new_TextLayer layer_id true x y (TextLayer.mk text color) in
  (layer_id, set_layers self (EinkComposer.layers self ++ [layer])).

Definition add_rectangle_layer (self : EinkComposer.t) (layer_id : string)
    (x y : Z) (width height : Z) (filled : bool) (color : Z) : string * EinkComposer.t :=
  let layer :=
    new_RectangleLayer layer_id true x y (RectangleLayer.mk width height filled color) in
  (layer_id, set_layers self (EinkComposer.layers self ++ [layer])).

(** [remove_layer]: keeps the layers with another id; the result is [True]
    whatever was removed. *)
Definition remove_layer (self : EinkComposer.t) (layer_id : string) : bool * EinkComposer.t :=
  (true,
   set_layers self
     (filter (fun l => Layer.id l ≠ layer_id) (EinkComposer.layers self))).

(** One keyword argument of [update_layer], with a value of the type the
    field of that name is declared with; [attr_other] is a keyword that names
    no attribute of a layer.  The names that every Python object answers to
    ([__class__], [__dict__], its methods) and attributes added to a layer
    at run time are not keywords of the model. *)
Inductive attr : Type :=
| attr_id (v : string)
| attr_type (v : string)
| attr_visible (v : bool)
| attr_x (v : Z)
| attr_y (v : Z)
| attr_image_path (v : option string)
| attr_image_data (v : option grid)
| attr_resize_mode (v : image_ops.resize_mode)
| attr_dither_mode (v : dithering.dither_mode)
| attr_brightness (v : float)
| attr_contrast (v : float)
| attr_rotate (v : Z)
| attr_flip_h (v : bool)
| attr_flip_v (v : bool)
| attr_crop_x (v : option Z)
| attr_crop_y (v : option Z)
| attr_text (v : string)
| attr_color (v : Z)
| attr_width (v : Z)
| attr_height (v : Z)
| attr_filled (v : bool)
| attr_other (key : string).

Definition set_class (layer : Layer.t) (c : layer_class) : Layer.t :=
  Layer.mk (Layer.id layer) (Layer.type layer) (Layer.visible layer)
           (Layer.x layer) (Layer.y layer) c.

(** [if hasattr(layer, key): setattr(layer, key, value)]. *)
Definition setattr_if_has (layer : Layer.t) (kv : attr) : Layer.t :=
  let '(Layer.mk id type visible x y class) := layer in
  match kv, class with
  | attr_id v, _ => Layer.mk v type visible x y class
  | attr_type v, _ => Layer.mk id v visible x y class
  | attr_visible v, _ => Layer.mk id type v x y class
  | attr_x v, _ => Layer.mk id type visible v y class
  | attr_y v, _ => Layer.mk id type visible x v class
  | attr_image_path v, Image (ImageLayer.mk _ d rm dm b c r fh fv cx cy) =>
      set_class layer (Image (ImageLayer.mk v d rm dm b c r fh fv cx cy))
  | attr_image_data v, Image (ImageLayer.mk p _ rm dm b c r fh fv cx cy) =>
      set_class layer (Image (ImageLayer.mk p v rm dm b c r fh fv cx cy))
  | attr_resize_mode v, Image (ImageLayer.mk p d _ dm b c r fh fv cx cy) =>
      set_class layer (Image (ImageLayer.mk p d v dm b c r fh fv cx cy))
  | attr_dither_mode v, Image (ImageLayer.mk p d rm _ b c r fh fv cx cy) =>
      set_class layer (Image (ImageLayer.mk p d rm v b c r fh fv cx cy))
  | attr_brightness v, Image (ImageLayer.mk p d rm dm _ c r fh fv cx cy) =>
      set_class layer (Image (ImageLayer.mk p d rm dm v c r fh fv cx cy))
  | attr_contrast v, Image (ImageLayer.mk p d rm dm b _ r fh fv cx cy) =>
      set_class layer (Image (ImageLayer.mk p d rm dm b v r fh fv cx cy))
  | attr_rotate v, Image (ImageLayer.mk p d rm dm b c _ fh fv cx cy) =>
      set_class layer (Image (ImageLayer.mk p d rm dm b c v fh fv cx cy))
  | attr_flip_h v, Image (ImageLayer.mk p d rm dm b c r _ fv cx cy) =>
      set_class layer (Image (ImageLayer.mk p d rm dm b c r v fv cx cy))
  | attr_flip_v v, Image (ImageLayer.mk p d rm dm b c r fh _ cx cy) =>
      set_class layer (Image (ImageLayer.mk p d rm dm b c r fh v cx cy))
  | attr_crop_x v, Image (ImageLayer.mk p d rm dm b c r fh fv _ cy) =>
      set_class layer (Image (ImageLayer.mk p d rm dm b c r fh fv v cy))
  | attr_crop_y v, Image (ImageLayer.mk p d rm dm b c r fh fv cx _) =>
      set_class layer (Image (ImageLayer.mk p d rm dm b c r fh fv cx v))
  | attr_text v, Text (TextLayer.mk _ c) => set_class layer (Text (TextLayer.mk v c))
  | attr_color v, Text (TextLayer.mk t _) => set_class layer (Text (TextLayer.mk t v))
  | attr_color v, Rectangle (RectangleLayer.mk w h f _) =>
      set_class layer (Rectangle (RectangleLayer.mk w h f v))
  | attr_width v, Rectangle (RectangleLayer.mk _ h f c) =>
      set_class layer (Rectangle (RectangleLayer.mk v h f c))
  | attr_height v, Rectangle (RectangleLayer.mk w _ f c) =>
      set_class layer (Rectangle (RectangleLayer.mk w v f c))
  | attr_filled v, Rectangle (RectangleLayer.mk w h _ c) =>
      set_class layer (Rectangle (RectangleLayer.mk w h v c))
  | _, _ => layer
  end.

(** [for key, value in kwargs.items(): ...]. *)
Definition apply_kwargs (layer : Layer.t) (kwargs : list attr) : Layer.t :=
  foldl setattr_if_has layer kwargs.

(** The loop shared by [update_layer] and [toggle_layer]:
    [for layer in self.layers: if layer.id == layer_id: <change layer>; return True]
    and [return False] after the loop. *)
Fixpoint change_layer (layer_id : string) (change : Layer.t -> Layer.t)
    (ls : list Layer.t) : bool * list Layer.t :=
  match ls with
  | [] => (false, [])
  | layer :: rest =>
      if String.eqb (Layer.id layer) layer_id
      then (true, change layer :: rest)
      else let '(found, rest') := change_layer layer_id change rest in
           (found, layer :: rest')
  end.

Definition update_layer (self : EinkComposer.t) (layer_id : string)
    (kwargs : list attr) : bool * EinkComposer.t :=
  let '(found, ls) :=
    change_layer layer_id (fun layer => apply_kwargs layer kwargs)
                 (EinkComposer.layers self) in
  (found, set_layers self ls).

Definition toggle_visible (layer : Layer.t) : Layer.t :=
  Layer.mk (Layer.id layer) (Layer.type layer) (negb (Layer.visible layer))
           (Layer.x layer) (Layer.y layer) (Layer.class layer).

Definition toggle_layer (self : EinkComposer.t) (layer_id : string) : bool * EinkComposer.t :=
  let '(found, ls) := change_layer layer_id toggle_visible (EinkComposer.layers self) in
  (found, set_layers self ls).

(** ** Rendering *)

(** Code that writes [self.canvas] and may raise: the canvas in, the outcome
    and the canvas out.  After a raise the canvas holds what had been written
    before it. *)
Definition M (A : Type) : Type := grid -> result A * grid.

#[export] Instance M_ret : MRet M := fun A a canvas => (Ok a, canvas).

#[export] Instance M_bind : MBind M := fun A B k m canvas =>
  match m canvas with
  | (Ok a, canvas') => k a canvas'
  | (Err e, canvas') => (Err e, canvas')
  end.

(** A computation that does not touch the canvas. *)
Definition lift {A} (r : result A) : M A := fun canvas => (r, canvas).

(** One statement [self.canvas[...] = ...]. *)
Definition write (assign : grid -> result grid) : M unit := fun canvas =>
  match assign canvas with
  | Ok canvas' => (Ok tt, canvas')
  | Err e => (Err e, canvas)
  end.

(** [for a in l: body(a)]. *)
Fixpoint for_each {A} (body : A -> M unit) (l : list A) : M unit :=
  match l with
  | [] => mret tt
  | a :: l' => _ ← body a; for_each body l'
  end.

(** The computation leaves every row of the canvas with the length it had,
    whether it returns or raises. *)
Definition keeps_shape {A} (m : M A) : Prop :=
  forall canvas, np.same_shape (m canvas).2 canvas.

(** The whole-canvas transformations of [render]: 'flip-h', 'flip-v',
    'rotate-90' and 'invert'. *)
Inductive transformation : Set := t_flip_h | t_flip_v | t_rotate_90 | t_invert.

Section Rendering.

(** [np.array(Image.open(path).convert('L'))]: the decoder of PIL over the
    files of the machine, which fails on an unreadable path. *)
Variable image_open : string -> result grid.

(** [image_ops.adjust_brightness_contrast], floating-point arithmetic on the
    samples; it is not among the sources and is left open: any function that
    returns a grid, or raises, and leaves its argument alone (section 2:
    the transform primitives are stateless). *)
Variable adjust_brightness_contrast : grid -> float -> float -> result grid.

(** [dithering.floyd_steinberg_dither], error diffusion over a floating-point
    buffer; it is not among the sources and is left open: any function that
    returns a grid, or raises, and leaves its argument alone (section 4.2:
    it accumulates into a working buffer and returns a grid). *)
Variable floyd_steinberg_dither : grid -> result grid.

(** The ink of a string in the fixed bitmap font of [text.py], which is not
    among the sources: the (row, column) offsets, from the origin of the
    text, of the pixels its glyphs set. *)
Variable text_ink : string -> list (Z * Z).

(** Modelled from the spec: [text.render_text] is not among the sources;
    sections 4.3 and 4.4: the glyphs are written from (x, y), [color] on the
    ink pixels, the other pixels untouched, and what falls outside the canvas
    is clipped silently. *)
Definition render_text (text : string) (x y : Z) (canvas : grid) (color : Z) : grid :=
  foldl (fun c '(dy, dx) =>
           let r := y + dy in
           let k := x + dx in
           if (0 <=? r) && (0 <=? k)
           then np.assign_block c (Z.to_nat r) 1 (Z.to_nat k) 1 (fun _ _ => np.uint8 color)
           else c)
        canvas (text_ink text).

(** Lines 190-197: the pixels of the layer, or nothing to draw. *)
Definition load_image (p : ImageLayer.t) : result (option grid) :=
  match ImageLayer.image_data p with
  | Some img => Ok (Some img)
  | None =>
      match ImageLayer.image_path p with
      | Some path =>
          if negb (String.eqb path EmptyString)
          then img ← image_open path; Ok (Some img)
          else Ok None
      | None => Ok None
      end
  end.

(** Lines 199-211: flips, then the quarter turns. *)
Definition apply_transformations (p : ImageLayer.t) (img : grid) : grid :=
  let img := if ImageLayer.flip_h p then image_ops.flip_horizontal img else img in
  let img := if ImageLayer.flip_v p then image_ops.flip_vertical img else img in
  if negb (ImageLayer.rotate p =? 0)
  then
    let rotations := (ImageLayer.rotate p mod 360) / 90 in
    Nat.iter (Z.to_nat rotations) image_ops.rotate_ccw_90 img
  else img.

(** Lines 213-223: the target size and the resize. *)
Definition resize_to_target (self : EinkComposer.t) (layer : Layer.t)
    (p : ImageLayer.t) (img : grid) : result grid :=
  let target_width := EinkComposer.width self - Layer.x layer in
  let target_height := EinkComposer.height self - Layer.y layer in
  if np.shape_neq (np.shape img) (target_height, target_width)
  then image_ops.resize_image img target_width target_height
         (ImageLayer.resize_mode p) (ImageLayer.crop_x p) (ImageLayer.crop_y p)
  else Ok img.

(** Lines 225-228. *)
Definition apply_brightness_contrast (p : ImageLayer.t) (img : grid) : result grid :=
  if negb (ImageLayer.brightness p =? 1)%float || negb (ImageLayer.contrast p =? 0)%float
  then adjust_brightness_contrast img (ImageLayer.brightness p) (ImageLayer.contrast p)
  else Ok img.

(** Lines 230-234. *)
Definition apply_dithering (p : ImageLayer.t) (img : grid) : result grid :=
  match ImageLayer.dither_mode p with
  | dithering.FloydSteinberg => floyd_steinberg_dither img
  | dithering.Threshold => dithering.threshold_dither img
  | dithering.NoDither => Ok img
  end.

(** Lines 236-242: the blit. *)
Definition composite (self : EinkComposer.t) (layer : Layer.t) (img : grid) : M unit :=
  let h := Z.of_nat (np.nrows img) in
  let w := Z.of_nat (np.ncols img) in
  let y_end := Z.min (Layer.y layer + h) (EinkComposer.height self) in
  let x_end := Z.min (Layer.x layer + w) (EinkComposer.width self) in
  if (Layer.y layer <? EinkComposer.height self) && (Layer.x layer <? EinkComposer.width self)
  then write (fun canvas =>
                np.setitem_block canvas (Layer.y layer) y_end (Layer.x layer) x_end
                  (np.getitem_upto img (y_end - Layer.y layer) (x_end - Layer.x layer)))
  else mret tt.

(** What [_render_image_layer] does with the pixels once they are loaded. *)
Definition draw_image (self : EinkComposer.t) (layer : Layer.t) (p : ImageLayer.t)
    (img : grid) : M unit :=
  let img := apply_transformations p img in
  img ← lift (resize_to_target self layer p img);
  img ← lift (apply_brightness_contrast p img);
  img ← lift (apply_dithering p img);
  composite self layer img.

Definition _render_image_layer (self : EinkComposer.t) (layer : Layer.t)
    (p : ImageLayer.t) : M unit :=
  if negb (Layer.visible layer) then mret tt
  else
    loaded ← lift (load_image p);
    match loaded with
    | None => mret tt
    | Some img => draw_image self layer p img
    end.

Definition _render_text_layer (self : EinkComposer.t) (layer : Layer.t)
    (p : TextLayer.t) : M unit :=
  if negb (Layer.visible layer) || String.eqb (TextLayer.text p) EmptyString then mret tt
  else
    write (fun canvas =>
             Ok (render_text (TextLayer.text p) (Layer.x layer) (Layer.y layer) canvas
                             (TextLayer.color p))).

Definition _render_rectangle_layer (self : EinkComposer.t) (layer : Layer.t)
    (p : RectangleLayer.t) : M unit :=
  if negb (Layer.visible layer) then mret tt
  else
    let x1 := Z.max 0 (Layer.x layer) in
    let y1 := Z.max 0 (Layer.y layer) in
    let x2 := Z.min (EinkComposer.width self) (Layer.x layer + RectangleLayer.width p) in
    let y2 := Z.min (EinkComposer.height self) (Layer.y layer + RectangleLayer.height p) in
    let color := RectangleLayer.color p in
    if (x1 >=? x2) || (y1 >=? y2) then mret tt
    else if RectangleLayer.filled p
    then write (fun canvas => Ok (np.setitem_block_scalar canvas y1 y2 x1 x2 color))
    else
      _ ← write (fun canvas => np.setitem_row_scalar canvas y1 x1 x2 color);
      _ ← write (fun canvas => np.setitem_row_scalar canvas (y2 - 1) x1 x2 color);
      _ ← write (fun canvas => np.setitem_col_scalar canvas y1 y2 x1 color);
      write (fun canvas => np.setitem_col_scalar canvas y1 y2 (x2 - 1) color).

(** The [isinstance] dispatch in the loop of [render]. *)
Definition render_layer (self : EinkComposer.t) (layer : Layer.t) : M unit :=
  match Layer.class layer with
  | Image p => _render_image_layer self layer p
  | Text p => _render_text_layer self layer p
  | Rectangle p => _render_rectangle_layer self layer p
  end.

(** Lines 301-305. *)
Definition apply_final_dither (final_dither : option dithering.dither_mode)
    (out : grid) : result grid :=
  match final_dither with
  | Some dithering.FloydSteinberg => floyd_steinberg_dither out
  | Some dithering.Threshold => dithering.threshold_dither out
  | _ => Ok out
  end.

Definition apply_transformation (out : grid) (transform : transformation) : grid :=
  match transform with
  | t_flip_h => image_ops.flip_horizontal out
  | t_flip_v => image_ops.flip_vertical out
  | t_rotate_90 => image_ops.rotate_ccw_90 out
  | t_invert => image_ops.invert_colors out
  end.

(** Lines 307-318: [None] and the empty list are both falsy. *)
Definition apply_final_transformations (transformations : option (list transformation))
    (out : grid) : grid :=
  match transformations with
  | Some ts => foldl apply_transformation out ts
  | None => out
  end.

(** [render]: the value returned (or the exception raised) and the composer
    afterwards. *)
Definition render (self : EinkComposer.t) (background_color : Z)
    (final_dither : option dithering.dither_mode)
    (transformations : option (list transformation)) : result grid * EinkComposer.t :=
  let cleared := np.fill (EinkComposer.canvas self) background_color in
  let '(outcome, canvas) := for_each (render_layer self) (EinkComposer.layers self) cleared in
  let self' := set_canvas self canvas in
  match outcome with
  | Err e => (Err e, self')
  | Ok _ =>
      let out := np.copy canvas in
      (out ← apply_final_dither final_dither out;
       Ok (apply_final_transformations transformations out),
       self')
  end.

End Rendering.

(** ** Attributes and the layer listing *)

(** The keyword of [kv] is the name of a field of one of the layer classes
    (lines 12-54). *)
Definition names_field (kv : attr) : bool :=
  match kv with
  | attr_other _ => false
  | _ => true
  end.

(** The keyword of [kv] is the name of a field of the class of [layer]: one
    of the fields of [Layer], or one of those that the class adds (lines
    12-54).  For the name of a field, and a layer built by the composer,
    this is [hasattr(layer, key)]. *)
Definition has_field (layer : Layer.t) (kv : attr) : bool :=
  match kv, Layer.class layer with
  | attr_id _, _ | attr_type _, _ | attr_visible _, _ | attr_x _, _ | attr_y _, _ => true
  | attr_image_path _, Image _ | attr_image_data _, Image _
  | attr_resize_mode _, Image _ | attr_dither_mode _, Image _
  | attr_brightness _, Image _ | attr_contrast _, Image _ | attr_rotate _, Image _
  | attr_flip_h _, Image _ | attr_flip_v _, Image _
  | attr_crop_x _, Image _ | attr_crop_y _, Image _ => true
  | attr_text _, Text _ | attr_color _, Text _ => true
  | attr_color _, Rectangle _ | attr_width _, Rectangle _
  | attr_height _, Rectangle _ | attr_filled _, Rectangle _ => true
  | _, _ => false
  end.


(** A value of the dictionaries of [get_layer_info]. *)
Inductive info_value : Type :=
| info_str (s : string)
| info_bool (b : bool)
| info_int (z : Z)
| info_none.

(** The strings of the resize and dither modes. *)
Definition resize_mode_str (m : image_ops.resize_mode) : string :=
  match m with
  | image_ops.Stretch => "stretch"
  | image_ops.Fit => "fit"
  | image_ops.Crop => "crop"
  end.

Definition dither_mode_str (m : dithering.dither_mode) : string :=
  match m with
  | dithering.FloydSteinberg => "floyd-steinberg"
  | dithering.Threshold => "threshold"
  | dithering.NoDither => "none"
  end.

(** A dictionary with string keys, in insertion order. *)
Abbreviation dict := (list (string * info_value)).

(** [d[key]], when the key is there. *)
Fixpoint dict_get (key : string) (d : dict) : option info_value :=
  match d with
  | [] => None
  | (k, v) :: d' => if String.eqb k key then Some v else dict_get key d'
  end.

(** Lines 359-384: the dictionary of one layer; [update] adds the keys of
    its class, none of which is there already. *)
Definition layer_info (layer : Layer.t) : dict :=
  let layer_info : dict :=
    [("id", info_str (Layer.id layer));
     ("type", info_str (Layer.type layer));
     ("visible", info_bool (Layer.visible layer));
     ("x", info_int (Layer.x layer));
     ("y", info_int (Layer.y layer))] in
  match Layer.class layer with
  | Image p =>
      layer_info
      ++ [("image_path", match ImageLayer.image_path p with
                         | Some path => info_str path
                         | None => info_none
                         end);
          ("resize_mode", info_str (resize_mode_str (ImageLayer.resize_mode p)));
          ("dither_mode", info_str (dither_mode_str (ImageLayer.dither_mode p)))]
  | Text p =>
      layer_info
      ++ [("text", info_str (TextLayer.text p));
          ("color", info_int (TextLayer.color p))]
  | Rectangle p =>
      layer_info
      ++ [("width", info_int (RectangleLayer.width p));
          ("height", info_int (RectangleLayer.height p));
          ("filled", info_bool (RectangleLayer.filled p));
          ("color", info_int (RectangleLayer.color p))]
  end.

(** [get_layer_info]: one dictionary per layer, in the order of the list. *)
Definition get_layer_info (self : EinkComposer.t) : list dict :=
  layer_info <$> EinkComposer.layers self.

(** ** Compositions used in the examples below *)

Module Examples.

(** A machine on which no image file is readable. *)
Definition no_files : string -> result grid := fun _ => Err LoadError.

(** A brightness and contrast step that is never reached by the examples:
    their layers keep brightness 1.0 and contrast 0. *)
Definition neutral_adjust : grid -> float -> float -> result grid := fun img _ _ => Ok img.

(** An error-diffusion step that is never reached by the examples: none of
    their layers, and no render call, asks for it. *)
Definition unused_dither : grid -> result grid := fun _ => Err InvalidInput.

(** A font without ink. *)
Definition blank_font : string -> list (Z * Z) := fun _ => [].

(** An in-memory image layer with every other field at its default but the
    resize and dither modes. *)
Definition image_of (data : grid) (resize_mode : image_ops.resize_mode)
    (dither_mode : dithering.dither_mode) : ImageLayer.t :=
  ImageLayer.mk None (Some data) resize_mode dither_mode 1%float 0%float 0
                false false None None.

(** Two rectangles that share the id "box". *)
Definition box_back : Layer.t :=
  new_RectangleLayer "box" true 0 0 (RectangleLayer.mk 10 10 true 0).
Definition box_front : Layer.t :=
  new_RectangleLayer "box" true 5 5 (RectangleLayer.mk 10 10 true 255).
Definition two_boxes : EinkComposer.t :=
  set_layers (EinkComposer_init 250 128) [box_back; box_front].

(** A 4 x 4 composer. *)
Definition small : EinkComposer.t := EinkComposer_init 4 4.

(** An image layer of 2 rows by 3 columns at (1, 2) on the 4 x 4 canvas:
    what remains of the canvas from there is 3 columns by 2 rows. *)
Definition photo_data : grid := [[10; 20; 30]; [40; 50; 60]].
Definition photo_pixels : ImageLayer.t := image_of photo_data image_ops.Fit dithering.NoDither.
Definition photo : Layer.t := new_ImageLayer "photo" true 1 2 photo_pixels.

(** An image layer one column left of the 4 x 4 canvas.  Its data has the
    size of the target, 5 columns by 4 rows, so that it is not resized. *)
Definition left_pixels : ImageLayer.t :=
  image_of (replicate 4 [0; 0; 0; 0; 0]) image_ops.Stretch dithering.NoDither.
Definition left_of_canvas : Layer.t := new_ImageLayer "left" true (-1) 0 left_pixels.

(** An image layer that starts at the right edge of the 4 x 4 canvas. *)
Definition off_pixels : ImageLayer.t :=
  image_of [[0; 0]; [0; 0]] image_ops.Stretch dithering.NoDither.
Definition right_of_canvas : Layer.t := new_ImageLayer "right" true 4 0 off_pixels.

(** The scenario of section 8: a 100 x 100 composer with one image layer at
    (0, 0), 50 x 50 samples of value 128, stretched, threshold dithering. *)
Definition gray_pixels : ImageLayer.t :=
  image_of (replicate 50 (replicate 50 128)) image_ops.Stretch dithering.Threshold.
Definition gray_scene : EinkComposer.t :=
  set_layers (EinkComposer_init 100 100) [new_ImageLayer "gray" true 0 0 gray_pixels].

(** An image layer without pixels and without a path. *)
Definition no_pixels : ImageLayer.t :=
  ImageLayer.mk None None image_ops.Fit dithering.FloydSteinberg 1%float 0%float 0
                false false None None.
Definition hollow : Layer.t := new_ImageLayer "hollow" true 0 0 no_pixels.

(** A filled black rectangle that hangs over the left and bottom edges of
    the 4 x 4 canvas, and the rectangle of the scenario of section 8, far
    outside the canvas. *)
Definition corner_rectangle : RectangleLayer.t := RectangleLayer.mk 3 10 true 0.
Definition corner : Layer.t := new_RectangleLayer "corner" true (-1) 2 corner_rectangle.
Definition far_rectangle : RectangleLayer.t := RectangleLayer.mk 10 10 true 0.
Definition far_away : Layer.t := new_RectangleLayer "far" true 1000 1000 far_rectangle.

(** A composer with one text layer of id "title". *)
Definition title : Layer.t := new_TextLayer "title" true 10 10 (TextLayer.mk "HI" 0).
Definition titled : EinkComposer.t := set_layers (EinkComposer_init 250 128) [title].

(** An outlined rectangle on the 4 x 4 canvas, from (1, 0), 3 by 3. *)
Definition outline_rectangle : RectangleLayer.t := RectangleLayer.mk 3 3 false 0.
Definition outline : Layer.t := new_RectangleLayer "outline" true 1 0 outline_rectangle.

(** An invisible image layer whose file cannot be read. *)
Definition hidden : Layer.t :=
  new_ImageLayer "hidden" false 0 0
    (ImageLayer.mk (Some "missing.png") None image_ops.Fit dithering.FloydSteinberg
                   1%float 0%float 0 false false None None).

(** A visible text layer with the empty text. *)
Definition blank_text : TextLayer.t := TextLayer.mk EmptyString 0.
Definition blank : Layer.t := new_TextLayer "blank" true 0 0 blank_text.

(** A white 2 x 2 rectangle at (1, 1), and what the 4 x 4 canvas holds
    under it once [corner] is drawn on white. *)
Definition patch_rectangle : RectangleLayer.t := RectangleLayer.mk 2 2 true 255.
Definition patch : Layer.t := new_RectangleLayer "patch" true 1 1 patch_rectangle.
Definition under_patch : grid :=
  [[255; 255; 255; 255]; [255; 255; 255; 255]; [0; 0; 255; 255]; [0; 0; 255; 255]].

(** The 4 x 4 composer with three rectangles: one that hangs over the
    edges, one outlined, one far outside. *)
Definition three_rectangles : EinkComposer.t :=
  set_layers small [corner; outline; far_away].

(** A 2 x 2 image at the origin of the 4 x 4 canvas, to be stretched over
    the whole of it. *)
Definition thumb_data : grid := [[10; 20]; [30; 40]].
Definition thumb_pixels : ImageLayer.t :=
  image_of thumb_data image_ops.Stretch dithering.NoDither.
Definition thumb : Layer.t := new_ImageLayer "thumb" true 0 0 thumb_pixels.

(** The 4 x 4 composer with two rectangles of colors 0 and 255. *)
Definition two_rectangles : EinkComposer.t := set_layers small [corner; patch].

End Examples.

(** * Properties *)

(** ** Layer management *)

Lemma set_layers_same self : set_layers self (EinkComposer.layers self) = self.
Proof. by destruct self. Qed.

Lemma change_layer_first layer_id change before layer after :
  Forall (fun l => Layer.id l ≠ layer_id) before ->
  Layer.id layer = layer_id ->
  change_layer layer_id change (before ++ layer :: after)
  = (true, before ++ change layer :: after).
Proof.
  intros Hbefore Hid.
  induction Hbefore as [|l before Hl _ IH]; simpl.
  - apply String.eqb_eq in Hid. by rewrite Hid.
  - apply String.eqb_neq in Hl. by rewrite Hl, IH.
Qed.

Lemma change_layer_absent layer_id change ls :
  Forall (fun l => Layer.id l ≠ layer_id) ls ->
  change_layer layer_id change ls = (false, ls).
Proof.
  induction 1 as [|l ls Hl _ IH]; simpl; [done|].
  apply String.eqb_neq in Hl. by rewrite Hl, IH.
Qed.

Lemma filter_other_ids layer_id (ls : list Layer.t) :
  Forall (fun l => Layer.id l ≠ layer_id) ls ->
  filter (fun l => Layer.id l ≠ layer_id) ls = ls.
Proof.
  induction 1 as [|l ls Hl _ IH]; [done|].
  by rewrite filter_cons_True, IH.
Qed.

(** An unknown id: [update_layer] answers [False] and changes nothing. *)
Lemma update_layer_unknown self layer_id kwargs :
  Forall (fun l => Layer.id l ≠ layer_id) (EinkComposer.layers self) ->
  update_layer self layer_id kwargs = (false, self).
Proof.
  intros H. unfold update_layer.
  by rewrite (change_layer_absent _ _ _ H), set_layers_same.
Qed.

(** An unknown id: [toggle_layer] answers [False] and changes nothing. *)
Lemma toggle_layer_unknown self layer_id :
  Forall (fun l => Layer.id l ≠ layer_id) (EinkComposer.layers self) ->
  toggle_layer self layer_id = (false, self).
Proof.
  intros H. unfold toggle_layer.
  by rewrite (change_layer_absent _ _ _ H), set_layers_same.
Qed.

(** [remove_layer] answers [True] whatever the id. *)
Lemma remove_layer_result self layer_id : (remove_layer self layer_id).1 = true.
Proof. reflexivity. Qed.

(** An unknown id: [remove_layer] changes nothing, and answers [True]. *)
Lemma remove_layer_unknown self layer_id :
  Forall (fun l => Layer.id l ≠ layer_id) (EinkComposer.layers self) ->
  remove_layer self layer_id = (true, self).
Proof.
  intros H. unfold remove_layer.
  by rewrite (filter_other_ids _ _ H), set_layers_same.
Qed.

(** C7, as stated, fails: with two layers of id "box", [toggle_layer] and
    [update_layer] do not leave the list that a change of the last of them
    would leave; they change the first and keep the last as it was. *)
Lemma C7_last_layer_untouched :
  (toggle_layer Examples.two_boxes "box").2
  <> set_layers Examples.two_boxes
       [Examples.box_back; toggle_visible Examples.box_front]
  /\ (update_layer Examples.two_boxes "box" [attr_x 7]).2
     <> set_layers Examples.two_boxes
          [Examples.box_back; apply_kwargs Examples.box_front [attr_x 7]]
  /\ (toggle_layer Examples.two_boxes "box").2
     = set_layers Examples.two_boxes
         [toggle_visible Examples.box_back; Examples.box_front]
  /\ (update_layer Examples.two_boxes "box" [attr_x 7]).2
     = set_layers Examples.two_boxes
         [apply_kwargs Examples.box_back [attr_x 7]; Examples.box_front].
Proof. repeat split; done. Qed.

(** C7 (amended): a lookup by id, as [update_layer] and [toggle_layer]
    perform it, stops at the first layer that bears the id: that layer is
    changed, the result is [True], and every other layer, any later layer of
    the same id included, is as before. *)
Theorem C7_first_match_wins self layer_id kwargs before layer after :
  EinkComposer.layers self = before ++ layer :: after ->
  Forall (fun l => Layer.id l ≠ layer_id) before ->
  Layer.id layer = layer_id ->
  update_layer self layer_id kwargs
  = (true, set_layers self (before ++ apply_kwargs layer kwargs :: after))
  /\ toggle_layer self layer_id
     = (true, set_layers self (before ++ toggle_visible layer :: after)).
Proof.
  intros Hls Hbefore Hid. unfold update_layer, toggle_layer.
  by rewrite Hls, !(change_layer_first _ _ _ _ _ Hbefore Hid).
Qed.

Lemma C7_first_match_wins_witness :
  update_layer Examples.two_boxes "box" [attr_x 7]
  = (true, set_layers Examples.two_boxes
             [apply_kwargs Examples.box_back [attr_x 7]; Examples.box_front])
  /\ toggle_layer Examples.two_boxes "box"
     = (true, set_layers Examples.two_boxes
                [toggle_visible Examples.box_back; Examples.box_front]).
Proof.
  apply (C7_first_match_wins Examples.two_boxes "box" [attr_x 7] []
           Examples.box_back [Examples.box_front]).
  - reflexivity.
  - constructor.
  - reflexivity.
Defined.

(** C8: on a composition with no layer of id "missing", [remove_layer]
    leaves the composition as it was and returns [True], the value it returns
    when a layer was removed; [update_layer] and [toggle_layer] return
    [False]. *)
Theorem C8_remove_unknown_returns_true :
  remove_layer Examples.two_boxes "missing" = (true, Examples.two_boxes)
  /\ update_layer Examples.two_boxes "missing" [attr_x 7] = (false, Examples.two_boxes)
  /\ toggle_layer Examples.two_boxes "missing" = (false, Examples.two_boxes).
Proof. repeat split; reflexivity. Qed.

(** ** The canvas monad *)

Lemma for_each_app {A} (body : A -> M unit) (l1 l2 : list A) canvas :
  for_each body (l1 ++ l2) canvas
  = match for_each body l1 canvas with
    | (Ok _, canvas') => for_each body l2 canvas'
    | (Err e, canvas') => (Err e, canvas')
    end.
Proof.
  revert canvas. induction l1 as [|a l1 IH]; intros canvas; simpl; [done|].
  unfold mbind, M_bind. destruct (body a canvas) as [[[]|e] canvas']; [apply IH|done].
Qed.

Lemma for_each_skip {A} (body : A -> M unit) (l1 l2 : list A) a canvas :
  (forall c, body a c = (Ok tt, c)) ->
  for_each body (l1 ++ a :: l2) canvas = for_each body (l1 ++ l2) canvas.
Proof.
  intros Hskip. rewrite !for_each_app.
  destruct (for_each body l1 canvas) as [[[]|e] canvas']; [|done].
  simpl. unfold mbind, M_bind. by rewrite Hskip.
Qed.


(** ** Writes keep the shape of an array *)

Lemma assign_block_same_shape g r0 nr c0 nc f :
  np.same_shape (np.assign_block g r0 nr c0 nc f) g.
Proof.
  unfold np.same_shape, np.assign_block.
  rewrite fmap_imap, <- (imap_const length g).
  apply imap_ext. intros i row _. simpl.
  case_match; [apply length_imap|done].
Qed.

Lemma setitem_block_same_shape g y0 y1 x0 x1 src g' :
  np.setitem_block g y0 y1 x0 x1 src = Ok g' -> np.same_shape g' g.
Proof.
  unfold np.setitem_block. case_match; [|done].
  intros [= <-]. apply assign_block_same_shape.
Qed.

Lemma setitem_row_scalar_same_shape g y x0 x1 v g' :
  np.setitem_row_scalar g y x0 x1 v = Ok g' -> np.same_shape g' g.
Proof.
  unfold np.setitem_row_scalar. case_match; [|done].
  intros [= <-]. apply assign_block_same_shape.
Qed.

Lemma setitem_col_scalar_same_shape g y0 y1 x v g' :
  np.setitem_col_scalar g y0 y1 x v = Ok g' -> np.same_shape g' g.
Proof.
  unfold np.setitem_col_scalar. case_match; [|done].
  intros [= <-]. apply assign_block_same_shape.
Qed.

Lemma fill_same_shape g v : np.same_shape (np.fill g v) g.
Proof.
  unfold np.same_shape, np.fill. rewrite <- list_fmap_compose.
  apply list_fmap_ext. intros i row _. simpl. apply length_replicate.
Qed.

(** [fill] reads the shape of the array and none of its samples. *)
Lemma fill_of_same_shape g1 g2 v : np.same_shape g1 g2 -> np.fill g1 v = np.fill g2 v.
Proof.
  unfold np.same_shape, np.fill. intros Hshape.
  change (fun r : list Z => replicate (length r) (np.uint8 v))
    with ((fun n => replicate n (np.uint8 v)) ∘ (length (A:=Z))).
  by rewrite !list_fmap_compose, Hshape.
Qed.

Lemma keeps_shape_ret {A} (a : A) : keeps_shape (mret a).
Proof. by intros canvas. Qed.

Lemma keeps_shape_lift {A} (r : result A) : keeps_shape (lift r).
Proof. by intros canvas. Qed.

Lemma keeps_shape_write assign :
  (forall canvas canvas', assign canvas = Ok canvas' -> np.same_shape canvas' canvas) ->
  keeps_shape (write assign).
Proof.
  intros Hassign canvas. unfold write.
  destruct (assign canvas) as [canvas'|e] eqn:Heq; simpl; [by apply Hassign|done].
Qed.

Lemma keeps_shape_bind {A B} (m : M A) (k : A -> M B) :
  keeps_shape m -> (forall a, keeps_shape (k a)) -> keeps_shape (m ≫= k).
Proof.
  intros Hm Hk canvas. unfold mbind, M_bind.
  specialize (Hm canvas). destruct (m canvas) as [[a|e] canvas']; simpl in *.
  - unfold np.same_shape in *. rewrite <- Hm. apply Hk.
  - done.
Qed.

Lemma keeps_shape_for_each {A} (body : A -> M unit) l :
  (forall a, keeps_shape (body a)) -> keeps_shape (for_each body l).
Proof.
  intros Hbody. induction l as [|a l IH]; simpl.
  - apply keeps_shape_ret.
  - apply keeps_shape_bind; [apply Hbody|by intros _].
Qed.

(** ** Reading an array after a write *)

Lemma pixel_assign_block g r0 nr c0 nc f i j :
  np.pixel (np.assign_block g r0 nr c0 nc f) i j
  = if ((r0 <=? i)%nat && (i <? r0 + nr)%nat) && ((c0 <=? j)%nat && (j <? c0 + nc)%nat)
    then (fun _ => f (i - r0)%nat (j - c0)%nat) <$> np.pixel g i j
    else np.pixel g i j.
Proof.
  unfold np.pixel, np.assign_block. rewrite list_lookup_imap.
  destruct (g !! i) as [row|]; simpl; [|by case_match].
  destruct ((r0 <=? i)%nat && (i <? r0 + nr)%nat); simpl; [|done].
  rewrite list_lookup_imap. destruct (row !! j); simpl; by case_match.
Qed.

Lemma pixel_has_shape g h w i j :
  np.has_shape g h w -> (i < h)%nat -> (j < w)%nat -> is_Some (np.pixel g i j).
Proof.
  intros [Hlen Hrows] Hi Hj. unfold np.pixel.
  destruct (lookup_lt_is_Some_2 g i) as [row Hrow]; [lia|].
  rewrite Hrow. simpl. apply lookup_lt_is_Some_2.
  rewrite Forall_lookup in Hrows. rewrite (Hrows _ _ Hrow). done.
Qed.

Lemma ncols_has_shape g h w : np.has_shape g h w -> (0 < h)%nat -> np.ncols g = w.
Proof.
  intros [Hlen Hrows] Hh. destruct g as [|row g]; simpl in *; [lia|].
  by inversion Hrows.
Qed.

Lemma slice_bound_inside n i : 0 <= i <= Z.of_nat n -> np.slice_bound n i = Z.to_nat i.
Proof.
  intros Hi. unfold np.slice_bound.
  destruct (Z.ltb_spec i 0); [lia|]. f_equal. lia.
Qed.

(** The test of [assign_block] along one axis, for the slice [a:b] of an
    axis that holds it. *)
Lemma block_test a b (i : nat) :
  0 <= a -> a <= b ->
  ((Z.to_nat a <=? i)%nat && (i <? Z.to_nat a + (Z.to_nat b - Z.to_nat a))%nat)
  = ((a <=? Z.of_nat i) && (Z.of_nat i <? b)).
Proof.
  intros Ha Hab. apply Bool.eq_iff_eq_true.
  rewrite !andb_true_iff, Nat.leb_le, Nat.ltb_lt, Z.leb_le, Z.ltb_lt. lia.
Qed.

Lemma uint8_in_range v : 0 <= v <= 255 -> np.uint8 v = v.
Proof. intros Hv. unfold np.uint8. apply Z.mod_small. lia. Qed.

(** ** The blit of an image layer *)

Lemma getitem_upto_all img h w :
  np.has_shape img h w -> (0 < h)%nat ->
  np.getitem_upto img (Z.of_nat h) (Z.of_nat w) = img.
Proof.
  intros Hshape Hh. unfold np.getitem_upto.
  rewrite (ncols_has_shape _ _ _ Hshape Hh). destruct Hshape as [Hlen Hrows].
  unfold np.nrows. rewrite Hlen, !slice_bound_inside, !Nat2Z.id by lia.
  rewrite take_ge by (rewrite length_fmap; lia).
  rewrite <- (list_fmap_id img) at 2. apply list_fmap_ext.
  intros i row Hrow. simpl. apply take_ge.
  rewrite Forall_lookup in Hrows. by rewrite (Hrows _ _ Hrow).
Qed.

Lemma pixel_nth img h w i j :
  np.has_shape img h w -> (i < h)%nat -> (j < w)%nat ->
  np.pixel img i j = Some (nth j (nth i img []) 0).
Proof.
  intros [Hlen Hrows] Hi Hj. unfold np.pixel.
  destruct (lookup_lt_is_Some_2 img i) as [row Hrow]; [lia|].
  rewrite Hrow. simpl. rewrite (nth_lookup_Some _ _ _ _ Hrow).
  rewrite Forall_lookup in Hrows. specialize (Hrows _ _ Hrow).
  destruct (lookup_lt_is_Some_2 row j) as [v Hv]; [lia|].
  by rewrite Hv, (nth_lookup_Some _ _ _ _ Hv).
Qed.

(** An image of the size of the target, at a position inside the canvas: the
    blit returns, and writes the image, cast to the canvas, over the canvas
    from (x, y) to the bottom-right corner, and nowhere else. *)
Lemma composite_inside_canvas self layer img canvas :
  np.has_shape canvas (Z.to_nat (EinkComposer.height self))
               (Z.to_nat (EinkComposer.width self)) ->
  np.has_shape img (Z.to_nat (EinkComposer.height self - Layer.y layer))
               (Z.to_nat (EinkComposer.width self - Layer.x layer)) ->
  0 <= Layer.x layer < EinkComposer.width self ->
  0 <= Layer.y layer < EinkComposer.height self ->
  exists canvas',
    composite self layer img canvas = (Ok tt, canvas')
    /\ forall i j : nat,
        np.pixel canvas' i j
        = if ((Layer.y layer <=? Z.of_nat i) && (Z.of_nat i <? EinkComposer.height self))
             && ((Layer.x layer <=? Z.of_nat j) && (Z.of_nat j <? EinkComposer.width self))
          then np.uint8
                 <$> np.pixel img (i - Z.to_nat (Layer.y layer))
                              (j - Z.to_nat (Layer.x layer))
          else np.pixel canvas i j.
Proof.
  intros Hcanvas Himg Hx Hy.
  assert (Hrows : np.nrows img = Z.to_nat (EinkComposer.height self - Layer.y layer))
    by apply Himg.
  assert (Hcols : np.ncols img = Z.to_nat (EinkComposer.width self - Layer.x layer)).
  { apply (ncols_has_shape _ _ _ Himg). lia. }
  assert (Hcrows : np.nrows canvas = Z.to_nat (EinkComposer.height self)) by apply Hcanvas.
  assert (Hccols : np.ncols canvas = Z.to_nat (EinkComposer.width self)).
  { apply (ncols_has_shape _ _ _ Hcanvas). lia. }
  unfold composite. rewrite Hrows, Hcols, !Z2Nat.id by lia.
  replace (Z.min (Layer.y layer + (EinkComposer.height self - Layer.y layer))
                 (EinkComposer.height self))
    with (EinkComposer.height self) by lia.
  replace (Z.min (Layer.x layer + (EinkComposer.width self - Layer.x layer))
                 (EinkComposer.width self))
    with (EinkComposer.width self) by lia.
  destruct (Z.ltb_spec (Layer.y layer) (EinkComposer.height self)); [|lia].
  destruct (Z.ltb_spec (Layer.x layer) (EinkComposer.width self)); [|lia].
  simpl. unfold write, np.setitem_block.
  pose proof (getitem_upto_all _ _ _ Himg ltac:(lia)) as Hget.
  rewrite !Z2Nat.id in Hget by lia. rewrite Hget.
  rewrite Hcrows, Hccols, !slice_bound_inside by lia.
  unfold np.broadcastable. rewrite Hrows, Hcols.
  replace (Z.to_nat (EinkComposer.height self) - Z.to_nat (Layer.y layer))%nat
    with (Z.to_nat (EinkComposer.height self - Layer.y layer)) by lia.
  replace (Z.to_nat (EinkComposer.width self) - Z.to_nat (Layer.x layer))%nat
    with (Z.to_nat (EinkComposer.width self - Layer.x layer)) by lia.
  rewrite !Nat.eqb_refl. simpl. eexists. split; [reflexivity|].
  intros i j. rewrite pixel_assign_block.
  replace (Z.to_nat (EinkComposer.height self - Layer.y layer))
    with (Z.to_nat (EinkComposer.height self) - Z.to_nat (Layer.y layer))%nat by lia.
  replace (Z.to_nat (EinkComposer.width self - Layer.x layer))
    with (Z.to_nat (EinkComposer.width self) - Z.to_nat (Layer.x layer))%nat by lia.
  rewrite !block_test by lia.
  case_match eqn:Hin; [|done].
  apply andb_true_iff in Hin as [Hi Hj].
  apply andb_true_iff in Hi as [Hi1 Hi2]. apply andb_true_iff in Hj as [Hj1 Hj2].
  apply Z.leb_le in Hi1, Hj1. apply Z.ltb_lt in Hi2, Hj2.
  destruct (pixel_has_shape canvas _ _ i j Hcanvas) as [v Hv]; [lia..|].
  rewrite Hv. simpl.
  rewrite (pixel_nth _ _ _ _ _ Himg) by lia.
  simpl. unfold np.broadcast_at. do 2 f_equal.
  destruct (Nat.eqb_spec (np.nrows img) 1) as [Hone|_];
    destruct (Nat.eqb_spec (np.ncols img) 1) as [Hone'|_]; try done.
  - replace (i - Z.to_nat (Layer.y layer))%nat with 0%nat by lia.
    replace (j - Z.to_nat (Layer.x layer))%nat with 0%nat by lia. done.
  - replace (i - Z.to_nat (Layer.y layer))%nat with 0%nat by lia. done.
  - replace (j - Z.to_nat (Layer.x layer))%nat with 0%nat by lia. done.
Qed.

(** An image of the size of the target, at a negative position: the slice
    of the canvas wraps around, its shape is not the shape of the image, and
    the blit raises before it writes. *)
Lemma composite_negative_position self layer img canvas :
  np.has_shape canvas (Z.to_nat (EinkComposer.height self))
               (Z.to_nat (EinkComposer.width self)) ->
  np.has_shape img (Z.to_nat (EinkComposer.height self - Layer.y layer))
               (Z.to_nat (EinkComposer.width self - Layer.x layer)) ->
  0 < EinkComposer.width self -> 0 < EinkComposer.height self ->
  Layer.x layer < EinkComposer.width self ->
  Layer.y layer < EinkComposer.height self ->
  Layer.x layer < 0 \/ Layer.y layer < 0 ->
  composite self layer img canvas = (Err ValueError, canvas).
Proof.
  intros Hcanvas Himg Hw Hh Hx Hy Hneg.
  assert (Hrows : np.nrows img = Z.to_nat (EinkComposer.height self - Layer.y layer))
    by apply Himg.
  assert (Hcols : np.ncols img = Z.to_nat (EinkComposer.width self - Layer.x layer)).
  { apply (ncols_has_shape _ _ _ Himg). lia. }
  assert (Hcrows : np.nrows canvas = Z.to_nat (EinkComposer.height self)) by apply Hcanvas.
  assert (Hccols : np.ncols canvas = Z.to_nat (EinkComposer.width self)).
  { apply (ncols_has_shape _ _ _ Hcanvas). lia. }
  unfold composite. rewrite Hrows, Hcols, !Z2Nat.id by lia.
  replace (Z.min (Layer.y layer + (EinkComposer.height self - Layer.y layer))
                 (EinkComposer.height self))
    with (EinkComposer.height self) by lia.
  replace (Z.min (Layer.x layer + (EinkComposer.width self - Layer.x layer))
                 (EinkComposer.width self))
    with (EinkComposer.width self) by lia.
  destruct (Z.ltb_spec (Layer.y layer) (EinkComposer.height self)); [|lia].
  destruct (Z.ltb_spec (Layer.x layer) (EinkComposer.width self)); [|lia].
  simpl. unfold write, np.setitem_block.
  pose proof (getitem_upto_all _ _ _ Himg ltac:(lia)) as Hget.
  rewrite !Z2Nat.id in Hget by lia. rewrite Hget.
  rewrite Hcrows, Hccols.
  replace (np.broadcastable img _ _) with false; [done|].
  symmetry. unfold np.broadcastable. rewrite Hrows, Hcols.
  apply andb_false_iff.
  destruct Hneg as [Hneg|Hneg]; [right|left];
    apply orb_false_iff; split; apply Nat.eqb_neq;
    unfold np.slice_bound;
    repeat match goal with |- context [?a <? ?b] => destruct (Z.ltb_spec a b) end; lia.
Qed.

(** ** Shapes under the transform primitives *)

Lemma has_shape_flip_horizontal g h w :
  np.has_shape g h w -> np.has_shape (image_ops.flip_horizontal g) h w.
Proof.
  intros [Hlen Hrows]. unfold image_ops.flip_horizontal. split.
  - by rewrite length_fmap.
  - apply Forall_fmap. eapply Forall_impl; [|exact Hrows].
    intros row Hrow. simpl. by rewrite length_reverse.
Qed.

Lemma has_shape_flip_vertical g h w :
  np.has_shape g h w -> np.has_shape (image_ops.flip_vertical g) h w.
Proof.
  intros [Hlen Hrows]. unfold image_ops.flip_vertical. split.
  - by rewrite length_reverse.
  - by apply Forall_reverse.
Qed.

Lemma has_shape_rotate_ccw_90 g h w :
  np.has_shape g h w -> (0 < h)%nat -> np.has_shape (image_ops.rotate_ccw_90 g) w h.
Proof.
  intros Hshape Hh. unfold image_ops.rotate_ccw_90.
  rewrite (ncols_has_shape _ _ _ Hshape Hh). destruct Hshape as [Hlen _]. split.
  - by rewrite length_fmap, length_seq.
  - apply Forall_fmap, Forall_forall. intros i _. simpl. by rewrite length_fmap.
Qed.

Lemma has_shape_iter_rotate n g h w :
  np.has_shape g h w -> (0 < h)%nat -> (0 < w)%nat ->
  exists h' w', (0 < h')%nat /\ (0 < w')%nat
                /\ np.has_shape (Nat.iter n image_ops.rotate_ccw_90 g) h' w'.
Proof.
  intros Hshape Hh Hw. induction n as [|n (h' & w' & Hh' & Hw' & IH)]; simpl.
  - by exists h, w.
  - exists w', h'. eauto using has_shape_rotate_ccw_90.
Qed.

Lemma has_shape_resample image th tw : np.has_shape (image_ops.resample image th tw) th tw.
Proof.
  unfold image_ops.resample. split.
  - by rewrite length_fmap, length_seq.
  - apply Forall_fmap, Forall_forall. intros i _. simpl.
    by rewrite length_fmap, length_seq.
Qed.

Lemma fit_size_inside h w th tw nh nw :
  (0 < h)%nat -> (0 < w)%nat -> (0 < th)%nat -> (0 < tw)%nat ->
  image_ops.fit_size h w th tw = (nh, nw) -> (nh <= th)%nat /\ (nw <= tw)%nat.
Proof.
  intros Hh Hw Hth Htw. unfold image_ops.fit_size.
  destruct (Nat.leb_spec (tw * h) (th * w)); intros [= <- <-].
  - split; [|lia].
    assert (h * tw / w <= th)%nat; [|lia].
    apply Nat.Div0.div_le_upper_bound; lia.
  - split; [lia|].
    assert (w * th / h <= tw)%nat; [|lia].
    apply Nat.Div0.div_le_upper_bound; lia.
Qed.

Lemma cover_size_outside h w th tw nh nw :
  (0 < h)%nat -> (0 < w)%nat ->
  image_ops.cover_size h w th tw = (nh, nw) -> (th <= nh)%nat /\ (tw <= nw)%nat.
Proof.
  intros Hh Hw. unfold image_ops.cover_size.
  destruct (Nat.leb_spec (th * w) (tw * h)); intros [= <- <-].
  - split; [|lia]. apply Nat.div_le_lower_bound; lia.
  - split; [lia|]. apply Nat.div_le_lower_bound; lia.
Qed.

Lemma crop_offset_inside anchor scaled target :
  (image_ops.crop_offset anchor scaled target <= scaled - target)%nat.
Proof.
  unfold image_ops.crop_offset. destruct anchor as [a|].
  - lia.
  - apply Nat.Div0.div_le_upper_bound; lia.
Qed.

Lemma has_shape_paste_centered scaled nh nw th tw :
  np.has_shape scaled nh nw -> (nh <= th)%nat -> (nw <= tw)%nat ->
  np.has_shape (image_ops.paste_centered scaled nh nw th tw) th tw.
Proof.
  intros [Hlen Hrows] Hnh Hnw. unfold image_ops.paste_centered.
  assert ((th - nh) / 2 <= th - nh)%nat by (apply Nat.Div0.div_le_upper_bound; lia).
  assert ((tw - nw) / 2 <= tw - nw)%nat by (apply Nat.Div0.div_le_upper_bound; lia).
  generalize dependent ((th - nh) / 2)%nat. intros top Htop.
  generalize dependent ((tw - nw) / 2)%nat. intros left Hleft.
  split.
  - rewrite !length_app, !length_replicate, length_fmap. lia.
  - rewrite !Forall_app. split_and!.
    + apply Forall_replicate, length_replicate.
    + apply Forall_fmap. eapply Forall_impl; [|exact Hrows].
      intros row Hrow. simpl in *. rewrite !length_app, !length_replicate. lia.
    + apply Forall_replicate, length_replicate.
Qed.

Lemma has_shape_window scaled nh nw th tw oy ox :
  np.has_shape scaled nh nw -> (oy <= nh - th)%nat -> (ox <= nw - tw)%nat ->
  (th <= nh)%nat -> (tw <= nw)%nat ->
  np.has_shape (take th (drop oy (fmap (fun r : list Z => take tw (drop ox r)) scaled))) th tw.
Proof.
  intros [Hlen Hrows] Hoy Hox Hth Htw. split.
  - rewrite length_take, length_drop, length_fmap. lia.
  - apply Forall_take, Forall_drop, Forall_fmap.
    eapply Forall_impl; [|exact Hrows].
    intros row Hrow. simpl in *. rewrite length_take, length_drop. lia.
Qed.

(** [resize_image] returns a grid of the target size whenever it returns. *)
Lemma resize_image_shape image tw th mode cx cy resized :
  image_ops.resize_image image tw th mode cx cy = Ok resized ->
  np.has_shape resized (Z.to_nat th) (Z.to_nat tw).
Proof.
  unfold image_ops.resize_image.
  destruct (Z.leb_spec tw 0); simpl; [done|].
  destruct (Z.leb_spec th 0); simpl; [done|].
  destruct (Nat.eqb_spec (np.nrows image) 0); simpl; [done|].
  destruct (Nat.eqb_spec (np.ncols image) 0); simpl; [done|].
  destruct mode.
  - intros [= <-]. apply has_shape_resample.
  - destruct (image_ops.fit_size _ _ _ _) as [nh nw] eqn:Hfit. intros [= <-].
    apply fit_size_inside in Hfit as [Hnh Hnw]; [|lia..].
    apply has_shape_paste_centered; [apply has_shape_resample|done..].
  - destruct (image_ops.cover_size _ _ _ _) as [nh nw] eqn:Hcover. intros [= <-].
    apply cover_size_outside in Hcover as [Hnh Hnw]; [|lia..].
    apply (has_shape_window _ nh nw);
      [apply has_shape_resample|apply crop_offset_inside..|done|done].
Qed.

(** [resize_image] returns on an image that has a sample, for a positive
    target. *)
Lemma resize_image_returns image tw th mode cx cy :
  0 < tw -> 0 < th -> (0 < np.nrows image)%nat -> (0 < np.ncols image)%nat ->
  exists resized, image_ops.resize_image image tw th mode cx cy = Ok resized.
Proof.
  intros Htw Hth Hrows Hcols. unfold image_ops.resize_image.
  destruct (Z.leb_spec tw 0); [lia|]. destruct (Z.leb_spec th 0); [lia|].
  destruct (Nat.eqb_spec (np.nrows image) 0); [lia|].
  destruct (Nat.eqb_spec (np.ncols image) 0); [lia|]. simpl.
  destruct mode; [by eexists| |].
  - destruct (image_ops.fit_size _ _ _ _). by eexists.
  - destruct (image_ops.cover_size _ _ _ _). by eexists.
Qed.

(** [resize_image] raises InvalidDimension for a target that is not
    positive. *)
Lemma resize_image_raises image tw th mode cx cy :
  tw <= 0 \/ th <= 0 ->
  image_ops.resize_image image tw th mode cx cy = Err InvalidDimension.
Proof.
  intros Htarget. unfold image_ops.resize_image.
  destruct (Z.leb_spec tw 0); [done|]. destruct (Z.leb_spec th 0); [done|lia].
Qed.

(** ** Samples under [resize_image] *)

Lemma pixel_resample image h w th tw i j :
  np.has_shape image h w -> (0 < h)%nat -> (0 < w)%nat ->
  (i < th)%nat -> (j < tw)%nat ->
  np.pixel (image_ops.resample image th tw) i j
  = np.pixel image (i * h / th) (j * w / tw).
Proof.
  intros Hshape Hh Hw Hi Hj.
  assert (Hrows : np.nrows image = h) by apply Hshape.
  assert (Hrow : (i * h / th < h)%nat).
  { apply Nat.Div0.div_lt_upper_bound. nia. }
  assert (Hcol : (j * w / tw < w)%nat).
  { apply Nat.Div0.div_lt_upper_bound. nia. }
  rewrite (pixel_nth _ _ _ _ _ Hshape Hrow Hcol).
  unfold np.pixel, image_ops.resample.
  rewrite (ncols_has_shape _ _ _ Hshape Hh), Hrows.
  rewrite list_lookup_fmap, lookup_seq_lt by done. simpl.
  by rewrite list_lookup_fmap, lookup_seq_lt by done.
Qed.

Lemma pixel_window scaled th tw oy ox i j :
  (i < th)%nat -> (j < tw)%nat ->
  np.pixel (take th (drop oy (fmap (fun r : list Z => take tw (drop ox r)) scaled))) i j
  = np.pixel scaled (oy + i) (ox + j).
Proof.
  intros Hi Hj. unfold np.pixel.
  rewrite lookup_take_lt, lookup_drop, list_lookup_fmap by done.
  destruct (scaled !! (oy + i)%nat) as [row|]; simpl; [|done].
  by rewrite lookup_take_lt, lookup_drop by done.
Qed.

Lemma pixel_paste_centered scaled nh nw th tw i j :
  np.has_shape scaled nh nw -> (nh <= th)%nat -> (nw <= tw)%nat ->
  (i < th)%nat -> (j < tw)%nat ->
  np.pixel (image_ops.paste_centered scaled nh nw th tw) i j
  = if ((((th - nh) / 2 <=? i)%nat && (i <? (th - nh) / 2 + nh)%nat)
        && (((tw - nw) / 2 <=? j)%nat && (j <? (tw - nw) / 2 + nw)%nat))
    then np.pixel scaled (i - (th - nh) / 2) (j - (tw - nw) / 2)
    else Some 255.
Proof.
  intros [Hlen Hrows] Hnh Hnw Hi Hj. unfold image_ops.paste_centered.
  assert (Htop : ((th - nh) / 2 <= th - nh)%nat)
    by (apply Nat.Div0.div_le_upper_bound; lia).
  assert (Hleft : ((tw - nw) / 2 <= tw - nw)%nat)
    by (apply Nat.Div0.div_le_upper_bound; lia).
  generalize dependent ((th - nh) / 2)%nat. intros top Htop.
  generalize dependent ((tw - nw) / 2)%nat. intros left Hleft.
  unfold np.pixel.
  destruct (Nat.leb_spec top i) as [Hti|Hti]; simpl.
  2:{ rewrite lookup_app_l by (rewrite length_replicate; lia).
      rewrite lookup_replicate_2 by lia. simpl. apply lookup_replicate_2. lia. }
  rewrite lookup_app_r by (rewrite length_replicate; lia).
  rewrite length_replicate.
  destruct (Nat.ltb_spec i (top + nh)) as [Hin|Hin]; simpl.
  2:{ rewrite lookup_app_r by (rewrite length_fmap; lia).
      rewrite length_fmap, lookup_replicate_2 by lia. simpl.
      apply lookup_replicate_2. lia. }
  rewrite lookup_app_l by (rewrite length_fmap; lia).
  rewrite list_lookup_fmap.
  destruct (lookup_lt_is_Some_2 scaled (i - top)) as [row Hrow]; [lia|].
  rewrite Hrow. simpl.
  rewrite Forall_lookup in Hrows. specialize (Hrows _ _ Hrow). simpl in Hrows.
  destruct (Nat.leb_spec left j) as [Hlj|Hlj]; simpl.
  2:{ rewrite lookup_app_l by (rewrite length_replicate; lia).
      apply lookup_replicate_2. lia. }
  rewrite lookup_app_r by (rewrite length_replicate; lia).
  rewrite length_replicate.
  destruct (Nat.ltb_spec j (left + nw)) as [Hjn|Hjn]; simpl.
  - by rewrite lookup_app_l by lia.
  - rewrite lookup_app_r by lia. apply lookup_replicate_2. lia.
Qed.

(** The samples of what [resize_image] returns are those that the policy
    names, one by one. *)
Lemma resize_image_samples image h w tw th mode cx cy resized i j :
  np.has_shape image h w -> (0 < h)%nat -> (0 < w)%nat ->
  image_ops.resize_image image tw th mode cx cy = Ok resized ->
  (i < Z.to_nat th)%nat -> (j < Z.to_nat tw)%nat ->
  np.pixel resized i j
  = image_ops.resized_sample image (Z.to_nat th) (Z.to_nat tw) mode cx cy i j.
Proof.
  intros Hshape Hh Hw Hresized Hi Hj.
  assert (Hrows : np.nrows image = h) by apply Hshape.
  assert (Hcols : np.ncols image = w) by by apply (ncols_has_shape _ _ _ Hshape).
  revert Hresized. unfold image_ops.resize_image, image_ops.resized_sample.
  rewrite Hrows, Hcols.
  destruct (Z.leb_spec tw 0); cbn [orb]; [done|].
  destruct (Z.leb_spec th 0); cbn [orb]; [done|].
  destruct (Nat.eqb_spec h 0); cbn [orb]; [done|].
  destruct (Nat.eqb_spec w 0); cbn [orb]; [done|].
  destruct mode.
  - intros [= <-]. by apply pixel_resample.
  - destruct (image_ops.fit_size _ _ _ _) as [nh nw] eqn:Hfit. intros [= <-].
    apply fit_size_inside in Hfit as [Hnh Hnw]; [|lia..].
    rewrite (pixel_paste_centered _ nh nw) by (done || apply has_shape_resample).
    case_match eqn:Hin; [|done].
    apply andb_true_iff in Hin as [Hin1 Hin2].
    apply andb_true_iff in Hin1 as [Hi1 Hi2]. apply andb_true_iff in Hin2 as [Hj1 Hj2].
    apply Nat.leb_le in Hi1, Hj1. apply Nat.ltb_lt in Hi2, Hj2.
    apply pixel_resample; [done..| |]; lia.
  - destruct (image_ops.cover_size _ _ _ _) as [nh nw] eqn:Hcover. intros [= <-].
    apply cover_size_outside in Hcover as [Hnh Hnw]; [|lia..].
    rewrite pixel_window by done.
    pose proof (crop_offset_inside cy nh (Z.to_nat th)).
    pose proof (crop_offset_inside cx nw (Z.to_nat tw)).
    apply pixel_resample; [done..| |]; lia.
Qed.

Section RenderingFacts.

Variable image_open : string -> result grid.
Variable adjust_brightness_contrast : grid -> float -> float -> result grid.
Variable floyd_steinberg_dither : grid -> result grid.
Variable text_ink : string -> list (Z * Z).

Local Abbreviation render_image_layer :=
  (_render_image_layer image_open adjust_brightness_contrast floyd_steinberg_dither).
Local Abbreviation render_layer' :=
  (render_layer image_open adjust_brightness_contrast floyd_steinberg_dither text_ink).
Local Abbreviation render' :=
  (render image_open adjust_brightness_contrast floyd_steinberg_dither text_ink).
Local Abbreviation draw_image' :=
  (draw_image adjust_brightness_contrast floyd_steinberg_dither).

(** The renderers read the width and the height of the composer, and
    nothing else of it. *)
Lemma render_layer_dims self1 self2 :
  EinkComposer.width self1 = EinkComposer.width self2 ->
  EinkComposer.height self1 = EinkComposer.height self2 ->
  render_layer' self1 = render_layer' self2.
Proof.
  destruct self1, self2. simpl. by intros -> ->.
Qed.

(** ** Image layers: loading and transforming *)

Lemma load_image_no_source p :
  ImageLayer.image_data p = None ->
  ImageLayer.image_path p = None \/ ImageLayer.image_path p = Some EmptyString ->
  load_image image_open p = Ok None.
Proof.
  intros Hdata Hpath. unfold load_image. rewrite Hdata.
  by destruct Hpath as [-> | ->].
Qed.

(** C10: an image layer with no [image_data] and with [image_path] absent or
    empty is skipped: rendering it raises nothing and leaves the canvas as it
    was, so a composition renders as it does without that layer. *)
Theorem C10_image_without_source_is_skipped self layer p :
  ImageLayer.image_data p = None ->
  ImageLayer.image_path p = None \/ ImageLayer.image_path p = Some EmptyString ->
  (forall canvas,
     _render_image_layer image_open adjust_brightness_contrast floyd_steinberg_dither
       self layer p canvas
     = (Ok tt, canvas))
  /\ (Layer.class layer = Image p ->
      forall before after background_color final_dither transformations,
        (render image_open adjust_brightness_contrast floyd_steinberg_dither text_ink
           (set_layers self (before ++ layer :: after))
           background_color final_dither transformations).1
        = (render image_open adjust_brightness_contrast floyd_steinberg_dither text_ink
             (set_layers self (before ++ after))
             background_color final_dither transformations).1).
Proof.
  intros Hdata Hpath.
  assert (Hskip : forall s canvas, render_image_layer s layer p canvas = (Ok tt, canvas)).
  { intros s canvas. unfold _render_image_layer.
    destruct (Layer.visible layer); simpl; [|done].
    unfold mbind, M_bind, lift. by rewrite load_image_no_source. }
  split; [apply Hskip|].
  intros Hclass before after bg fd trs. unfold render.
  rewrite (render_layer_dims (set_layers self (before ++ layer :: after))
             (set_layers self (before ++ after))) by done.
  destruct self as [w h ls c]. simpl.
  rewrite for_each_skip.
  - by destruct (for_each _ _ _) as [[[]|e] canvas'].
  - intros c0. unfold render_layer. rewrite Hclass. apply Hskip.
Qed.

Lemma quarter_turns_bounds rotate : 0 <= (rotate mod 360) / 90 <= 3.
Proof.
  pose proof (Z.mod_pos_bound rotate 360 ltac:(lia)) as Hm.
  split; [apply Z.div_pos; lia|].
  assert ((rotate mod 360) / 90 < 4); [|lia].
  apply Z.div_lt_upper_bound; lia.
Qed.

(** The order matters: a horizontal flip before a quarter turn is not a
    horizontal flip after it. *)
Lemma flip_then_turn_is_not_turn_then_flip :
  image_ops.rotate_ccw_90 (image_ops.flip_horizontal [[1; 2]])
  <> image_ops.flip_horizontal (image_ops.rotate_ccw_90 [[1; 2]]).
Proof. done. Qed.

(** C5: the pixels of an image layer are flipped horizontally, then flipped
    vertically, then turned by [(rotate mod 360) / 90] counter-clockwise
    quarter turns, a count between 0 and 3, and only then resized to the
    target. *)
Theorem C5_flip_h_flip_v_then_rotate p img :
  apply_transformations p img
  = Nat.iter (Z.to_nat ((ImageLayer.rotate p mod 360) / 90)) image_ops.rotate_ccw_90
      ((if ImageLayer.flip_v p then image_ops.flip_vertical else id)
         ((if ImageLayer.flip_h p then image_ops.flip_horizontal else id) img))
  /\ 0 <= (ImageLayer.rotate p mod 360) / 90 <= 3
  /\ forall self layer,
      draw_image adjust_brightness_contrast floyd_steinberg_dither self layer p img
      = (resized ← lift (resize_to_target self layer p
                           (Nat.iter (Z.to_nat ((ImageLayer.rotate p mod 360) / 90))
                              image_ops.rotate_ccw_90
                              ((if ImageLayer.flip_v p then image_ops.flip_vertical else id)
                                 ((if ImageLayer.flip_h p then image_ops.flip_horizontal
                                   else id) img))));
         adjusted ← lift (apply_brightness_contrast adjust_brightness_contrast p resized);
         dithered ← lift (apply_dithering floyd_steinberg_dither p adjusted);
         composite self layer dithered).
Proof.
  assert (Heq : apply_transformations p img
    = Nat.iter (Z.to_nat ((ImageLayer.rotate p mod 360) / 90)) image_ops.rotate_ccw_90
        ((if ImageLayer.flip_v p then image_ops.flip_vertical else id)
           ((if ImageLayer.flip_h p then image_ops.flip_horizontal else id) img))).
  { unfold apply_transformations.
    destruct (Z.eqb_spec (ImageLayer.rotate p) 0) as [->|_]; simpl;
      by destruct (ImageLayer.flip_h p), (ImageLayer.flip_v p). }
  split; [exact Heq|]. split; [apply quarter_turns_bounds|].
  intros self layer. unfold draw_image. by rewrite <- Heq.
Qed.

(** ** Image layers: the target of the resize *)

Lemma apply_transformations_shape p img h w :
  np.has_shape img h w -> (0 < h)%nat -> (0 < w)%nat ->
  exists h' w', (0 < h')%nat /\ (0 < w')%nat
                /\ np.has_shape (apply_transformations p img) h' w'.
Proof.
  intros Hshape Hh Hw. unfold apply_transformations.
  set (flipped_h := if ImageLayer.flip_h p then _ else _).
  assert (Hfh : np.has_shape flipped_h h w).
  { subst flipped_h. destruct (ImageLayer.flip_h p); [|done].
    by apply has_shape_flip_horizontal. }
  set (flipped_v := if ImageLayer.flip_v p then _ else _).
  assert (Hfv : np.has_shape flipped_v h w).
  { subst flipped_v. destruct (ImageLayer.flip_v p); [|done].
    by apply has_shape_flip_vertical. }
  destruct (negb _); [|by exists h, w].
  by apply (has_shape_iter_rotate _ _ h w).
Qed.

Lemma resize_to_target_shape self layer p img h w resized :
  np.has_shape img h w -> (0 < h)%nat ->
  resize_to_target self layer p img = Ok resized ->
  np.has_shape resized (Z.to_nat (EinkComposer.height self - Layer.y layer))
               (Z.to_nat (EinkComposer.width self - Layer.x layer)).
Proof.
  intros Hshape Hh. unfold resize_to_target.
  destruct (np.shape_neq _ _) eqn:Hneq; [apply resize_image_shape|].
  intros [= <-]. unfold np.shape_neq, np.shape in Hneq. simpl in Hneq.
  apply negb_false_iff, andb_true_iff in Hneq as [Hrows Hcols].
  apply Z.eqb_eq in Hrows, Hcols. rewrite <- Hrows, <- Hcols, !Nat2Z.id.
  rewrite (ncols_has_shape _ _ _ Hshape Hh).
  destruct Hshape as [Hlen Hall]. unfold np.nrows. by rewrite Hlen.
Qed.

Lemma resize_to_target_returns self layer p img :
  0 < EinkComposer.width self - Layer.x layer ->
  0 < EinkComposer.height self - Layer.y layer ->
  (0 < np.nrows img)%nat -> (0 < np.ncols img)%nat ->
  exists resized, resize_to_target self layer p img = Ok resized.
Proof.
  intros Hw Hh Hrows Hcols. unfold resize_to_target.
  destruct (np.shape_neq _ _); [by apply resize_image_returns|by eexists].
Qed.

(** An image layer off the canvas to the right or below: the resize is
    asked for a target that is not positive, and raises. *)
Lemma resize_to_target_off_canvas self layer p img :
  (0 < np.nrows img)%nat -> (0 < np.ncols img)%nat ->
  EinkComposer.width self <= Layer.x layer \/ EinkComposer.height self <= Layer.y layer ->
  resize_to_target self layer p img = Err InvalidDimension.
Proof.
  intros Hrows Hcols Hoff. unfold resize_to_target.
  destruct (np.shape_neq _ _) eqn:Hneq; [apply resize_image_raises; lia|].
  unfold np.shape_neq, np.shape in Hneq. simpl in Hneq.
  apply negb_false_iff, andb_true_iff in Hneq as [Hr Hc].
  apply Z.eqb_eq in Hr, Hc. lia.
Qed.

(** A visible image layer with pixels, off the canvas to the right or
    below: rendering it raises, and the canvas is as it was. *)
Lemma image_layer_off_canvas_raises self layer p src h w canvas :
  Layer.visible layer = true ->
  load_image image_open p = Ok (Some src) ->
  np.has_shape src h w -> (0 < h)%nat -> (0 < w)%nat ->
  EinkComposer.width self <= Layer.x layer \/ EinkComposer.height self <= Layer.y layer ->
  render_image_layer self layer p canvas = (Err InvalidDimension, canvas).
Proof.
  intros Hvisible Hload Hshape Hh Hw Hoff.
  destruct (apply_transformations_shape p src h w Hshape Hh Hw)
    as (h' & w' & Hh' & Hw' & Hshape').
  unfold _render_image_layer. rewrite Hvisible. simpl.
  unfold mbind at 1. unfold M_bind at 1. unfold lift at 1. rewrite Hload.
  unfold draw_image. unfold mbind at 1. unfold M_bind at 1. unfold lift at 1.
  rewrite resize_to_target_off_canvas; [done| | |done].
  - destruct Hshape' as [Hlen _]. unfold np.nrows. lia.
  - rewrite (ncols_has_shape _ _ _ Hshape' Hh'). lia.
Qed.

(** [resize_to_target] keeps an image that has the size of the target, and
    hands any other to [resize_image] with the target. *)
Lemma resize_to_target_cases self layer p img resized :
  resize_to_target self layer p img = Ok resized ->
  (np.shape img = (EinkComposer.height self - Layer.y layer,
                   EinkComposer.width self - Layer.x layer)
   /\ resized = img)
  \/ (np.shape img <> (EinkComposer.height self - Layer.y layer,
                       EinkComposer.width self - Layer.x layer)
      /\ image_ops.resize_image img
           (EinkComposer.width self - Layer.x layer)
           (EinkComposer.height self - Layer.y layer)
           (ImageLayer.resize_mode p) (ImageLayer.crop_x p) (ImageLayer.crop_y p)
         = Ok resized).
Proof.
  unfold resize_to_target, np.shape_neq. simpl.
  destruct (Z.eqb_spec (Z.of_nat (np.nrows img))
              (EinkComposer.height self - Layer.y layer)) as [Hrows|Hrows]; simpl.
  - destruct (Z.eqb_spec (Z.of_nat (np.ncols img))
                (EinkComposer.width self - Layer.x layer)) as [Hcols|Hcols]; simpl.
    + intros [= <-]. left. unfold np.shape. by rewrite Hrows, Hcols.
    + intros Hresized. right. split; [|done]. unfold np.shape. intros [= _ Heq]. done.
  - intros Hresized. right. split; [|done]. unfold np.shape. intros [= Heq _]. done.
Qed.

(** C1: the pixels of a visible image layer at (x, y), once flipped and
    turned, are resized to exactly canvas width - x by canvas height - y:
    an image of that size already is kept as it is, any other is handed to
    [resize_image] with that target and the policy and anchor of the layer,
    and comes back with that size, each of its samples the one that the
    policy takes from the image; what comes back is what is adjusted,
    dithered and blitted.  When that footprint is positive the resize
    returns.  An image layer has no attribute [width] or [height]: setting
    them changes nothing. *)
Theorem C1_footprint_is_canvas_minus_position self layer p src h w :
  Layer.visible layer = true ->
  load_image image_open p = Ok (Some src) ->
  np.has_shape src h w -> (0 < h)%nat -> (0 < w)%nat ->
  (forall resized,
     resize_to_target self layer p (apply_transformations p src) = Ok resized ->
     np.has_shape resized (Z.to_nat (EinkComposer.height self - Layer.y layer))
                  (Z.to_nat (EinkComposer.width self - Layer.x layer))
     /\ ((np.shape (apply_transformations p src)
          = (EinkComposer.height self - Layer.y layer,
             EinkComposer.width self - Layer.x layer)
          /\ resized = apply_transformations p src)
         \/ (np.shape (apply_transformations p src)
             <> (EinkComposer.height self - Layer.y layer,
                 EinkComposer.width self - Layer.x layer)
             /\ image_ops.resize_image (apply_transformations p src)
                  (EinkComposer.width self - Layer.x layer)
                  (EinkComposer.height self - Layer.y layer)
                  (ImageLayer.resize_mode p) (ImageLayer.crop_x p) (ImageLayer.crop_y p)
                = Ok resized
             /\ forall i j : nat,
                 (i < Z.to_nat (EinkComposer.height self - Layer.y layer))%nat ->
                 (j < Z.to_nat (EinkComposer.width self - Layer.x layer))%nat ->
                 np.pixel resized i j
                 = image_ops.resized_sample (apply_transformations p src)
                     (Z.to_nat (EinkComposer.height self - Layer.y layer))
                     (Z.to_nat (EinkComposer.width self - Layer.x layer))
                     (ImageLayer.resize_mode p) (ImageLayer.crop_x p)
                     (ImageLayer.crop_y p) i j))
     /\ forall canvas,
         _render_image_layer image_open adjust_brightness_contrast floyd_steinberg_dither
           self layer p canvas
         = (adjusted ← lift (apply_brightness_contrast adjust_brightness_contrast p resized);
            dithered ← lift (apply_dithering floyd_steinberg_dither p adjusted);
            composite self layer dithered) canvas)
  /\ (0 < EinkComposer.width self - Layer.x layer ->
      0 < EinkComposer.height self - Layer.y layer ->
      exists resized,
        resize_to_target self layer p (apply_transformations p src) = Ok resized)
  /\ (Layer.class layer = Image p ->
      forall width height,
        apply_kwargs layer [attr_width width; attr_height height] = layer).
Proof.
  intros Hvisible Hload Hshape Hh Hw.
  destruct (apply_transformations_shape p src h w Hshape Hh Hw)
    as (h' & w' & Hh' & Hw' & Hshape').
  split_and!.
  - intros resized Hresized. split_and!.
    + by apply (resize_to_target_shape _ _ p (apply_transformations p src) h' w').
    + destruct (resize_to_target_cases _ _ _ _ _ Hresized) as [Hkept|[Hother Hcall]];
        [by left|right].
      split_and!; [done..|]. intros i j Hi Hj.
      by apply (resize_image_samples _ h' w').
    + intros canvas. unfold _render_image_layer. rewrite Hvisible. simpl.
      unfold mbind at 1. unfold M_bind at 1. unfold lift at 1. rewrite Hload.
      unfold draw_image. unfold mbind at 1. unfold M_bind at 1. unfold lift at 1.
      by rewrite Hresized.
  - intros Hwidth Hheight. apply resize_to_target_returns; [done..| |].
    + destruct Hshape' as [Hlen _]. unfold np.nrows. lia.
    + rewrite (ncols_has_shape _ _ _ Hshape' Hh'). lia.
  - intros Hclass width height. destruct layer as [i t v x y c]. simpl in Hclass.
    subst c. by destruct p.
Qed.

(** ** Rendering keeps the shape of the canvas *)

Lemma render_text_same_shape text x y canvas color :
  np.same_shape (render_text text_ink text x y canvas color) canvas.
Proof.
  unfold render_text. generalize (text_ink text) as ink. intros ink.
  revert canvas. induction ink as [|[dy dx] ink IH]; intros canvas; simpl; [done|].
  unfold np.same_shape in *. rewrite IH.
  case_match; [apply assign_block_same_shape|done].
Qed.

Lemma composite_keeps_shape self layer img : keeps_shape (composite self layer img).
Proof.
  unfold composite. case_match; [|apply keeps_shape_ret].
  apply keeps_shape_write. intros canvas canvas'. apply setitem_block_same_shape.
Qed.

Lemma render_layer_keeps_shape self layer : keeps_shape (render_layer' self layer).
Proof.
  unfold render_layer. destruct (Layer.class layer) as [p|p|p].
  - unfold _render_image_layer. case_match; [apply keeps_shape_ret|].
    apply keeps_shape_bind; [apply keeps_shape_lift|]. intros [img|]; [|apply keeps_shape_ret].
    unfold draw_image.
    repeat (apply keeps_shape_bind; [apply keeps_shape_lift|]; intros ?).
    apply composite_keeps_shape.
  - unfold _render_text_layer. case_match; [apply keeps_shape_ret|].
    apply keeps_shape_write. intros canvas canvas' [= <-]. apply render_text_same_shape.
  - unfold _render_rectangle_layer. repeat (case_match; [apply keeps_shape_ret|]).
    case_match.
    + apply keeps_shape_write. intros canvas canvas' [= <-]. apply assign_block_same_shape.
    + repeat (apply keeps_shape_bind; [|intros ?]);
        apply keeps_shape_write; intros canvas canvas';
        (apply setitem_row_scalar_same_shape || apply setitem_col_scalar_same_shape).
Qed.

(** What [render] leaves in the composer: the layers it found, and the
    canvas as the layer pass left it. *)
Lemma render_composer_after self background_color final_dither transformations :
  (render' self background_color final_dither transformations).2
  = set_canvas self
      (for_each (render_layer' self) (EinkComposer.layers self)
                (np.fill (EinkComposer.canvas self) background_color)).2.
Proof.
  unfold render. by destruct (for_each _ _ _) as [[[]|e] canvas].
Qed.

(** C2: a second [render] with the same options, with nothing done to the
    composition in between, returns what the first returned (the same grid,
    or the same exception) and leaves the composer as the first left it;
    the layer list after either call is the list before the first. *)
Theorem C2_render_twice self background_color final_dither transformations :
  render image_open adjust_brightness_contrast floyd_steinberg_dither text_ink
    (render image_open adjust_brightness_contrast floyd_steinberg_dither text_ink
       self background_color final_dither transformations).2
    background_color final_dither transformations
  = render image_open adjust_brightness_contrast floyd_steinberg_dither text_ink
      self background_color final_dither transformations
  /\ EinkComposer.layers
       (render image_open adjust_brightness_contrast floyd_steinberg_dither text_ink
          self background_color final_dither transformations).2
     = EinkComposer.layers self
  /\ EinkComposer.layers
       (render image_open adjust_brightness_contrast floyd_steinberg_dither text_ink
          (render image_open adjust_brightness_contrast floyd_steinberg_dither text_ink
             self background_color final_dither transformations).2
          background_color final_dither transformations).2
     = EinkComposer.layers self.
Proof.
  assert (Hagain :
    render' (render' self background_color final_dither transformations).2
            background_color final_dither transformations
    = render' self background_color final_dither transformations).
  { rewrite render_composer_after.
    set (cleared := np.fill (EinkComposer.canvas self) background_color).
    pose proof (keeps_shape_for_each (render_layer' self) (EinkComposer.layers self)
                  (render_layer_keeps_shape self) cleared) as Hshape.
    unfold render.
    rewrite (render_layer_dims (set_canvas self _) self) by done.
    change (EinkComposer.layers (set_canvas self _)) with (EinkComposer.layers self).
    change (EinkComposer.canvas (set_canvas self ?c)) with c.
    rewrite (fill_of_same_shape _ (EinkComposer.canvas self)).
    2:{ unfold np.same_shape in *. rewrite Hshape. apply fill_same_shape. }
    fold cleared.
    destruct (for_each _ _ cleared) as [[[]|e] canvas]; reflexivity. }
  split; [exact Hagain|]. split.
  - by rewrite render_composer_after.
  - rewrite Hagain. by rewrite render_composer_after.
Qed.

(** ** Rectangle layers *)

(** C9: a visible rectangle whose bounds, clipped against the canvas, are
    empty is drawn by writing nothing and raising nothing; a filled
    rectangle with non-empty clipped bounds sets the pixels of the clipped
    block, and only those, to its color. *)
Theorem C9_rectangle_clipped_to_canvas self layer p canvas x1 y1 x2 y2 :
  Layer.visible layer = true ->
  np.has_shape canvas (Z.to_nat (EinkComposer.height self))
               (Z.to_nat (EinkComposer.width self)) ->
  x1 = Z.max 0 (Layer.x layer) ->
  y1 = Z.max 0 (Layer.y layer) ->
  x2 = Z.min (EinkComposer.width self) (Layer.x layer + RectangleLayer.width p) ->
  y2 = Z.min (EinkComposer.height self) (Layer.y layer + RectangleLayer.height p) ->
  (x1 >= x2 \/ y1 >= y2 ->
   _render_rectangle_layer self layer p canvas = (Ok tt, canvas))
  /\ (x1 < x2 -> y1 < y2 ->
      RectangleLayer.filled p = true ->
      0 <= RectangleLayer.color p <= 255 ->
      exists canvas',
        _render_rectangle_layer self layer p canvas = (Ok tt, canvas')
        /\ forall i j : nat,
            np.pixel canvas' i j
            = if ((y1 <=? Z.of_nat i) && (Z.of_nat i <? y2))
                 && ((x1 <=? Z.of_nat j) && (Z.of_nat j <? x2))
              then Some (RectangleLayer.color p)
              else np.pixel canvas i j).
Proof.
  intros Hvisible Hshape -> -> -> ->. unfold _render_rectangle_layer.
  rewrite Hvisible. simpl. split.
  - intros Hempty.
    destruct (Z.geb_spec (Z.max 0 (Layer.x layer))
                (Z.min (EinkComposer.width self) (Layer.x layer + RectangleLayer.width p)));
      [done|].
    destruct (Z.geb_spec (Z.max 0 (Layer.y layer))
                (Z.min (EinkComposer.height self) (Layer.y layer + RectangleLayer.height p)));
      [done|lia].
  - intros Hx Hy Hfilled Hcolor.
    destruct (Z.geb_spec (Z.max 0 (Layer.x layer))
                (Z.min (EinkComposer.width self) (Layer.x layer + RectangleLayer.width p)));
      [lia|].
    destruct (Z.geb_spec (Z.max 0 (Layer.y layer))
                (Z.min (EinkComposer.height self) (Layer.y layer + RectangleLayer.height p)));
      [lia|].
    simpl. rewrite Hfilled. unfold write. eexists. split; [reflexivity|].
    intros i j. unfold np.setitem_block_scalar.
    assert (Hrows : np.nrows canvas = Z.to_nat (EinkComposer.height self)) by apply Hshape.
    assert (Hcols : np.ncols canvas = Z.to_nat (EinkComposer.width self)).
    { apply (ncols_has_shape _ _ _ Hshape). lia. }
    rewrite pixel_assign_block, Hrows, Hcols.
    rewrite !slice_bound_inside by lia.
    rewrite !block_test by lia.
    case_match eqn:Hin; [|done].
    apply andb_true_iff in Hin as [Hi Hj].
    apply andb_true_iff in Hi as [Hi1 Hi2]. apply andb_true_iff in Hj as [Hj1 Hj2].
    apply Z.leb_le in Hi1, Hj1. apply Z.ltb_lt in Hi2, Hj2.
    destruct (pixel_has_shape canvas _ _ i j Hshape) as [v Hv]; [lia..|].
    rewrite Hv. simpl. by rewrite uint8_in_range.
Qed.

End RenderingFacts.

(** ** Concrete compositions *)

Lemma C1_footprint_is_canvas_minus_position_witness :
  exists resized,
    resize_to_target Examples.small Examples.thumb Examples.thumb_pixels
      (apply_transformations Examples.thumb_pixels Examples.thumb_data) = Ok resized
    /\ np.has_shape resized 4 4
    /\ image_ops.resize_image
         (apply_transformations Examples.thumb_pixels Examples.thumb_data) 4 4
         image_ops.Stretch None None
       = Ok resized
    /\ np.pixel resized 0 0 = Some 10 /\ np.pixel resized 1 2 = Some 20
    /\ np.pixel resized 2 1 = Some 30 /\ np.pixel resized 3 3 = Some 40.
Proof.
  pose proof (C1_footprint_is_canvas_minus_position
                Examples.no_files Examples.neutral_adjust Examples.unused_dither
                Examples.small Examples.thumb Examples.thumb_pixels Examples.thumb_data
                2%nat 2%nat) as H.
  destruct H as (Hresize & Hreturns & _).
  - reflexivity.
  - reflexivity.
  - split; [reflexivity|repeat constructor].
  - lia.
  - lia.
  - destruct Hreturns as [resized Hresized]; [reflexivity..|].
    exists resized.
    destruct (Hresize resized Hresized) as (Hshape & [[Hkept _]|(_ & Hcall & Hsamples)] & _).
    + discriminate Hkept.
    + split_and!; [exact Hresized|exact Hshape|exact Hcall| | | |].
      * rewrite (Hsamples 0%nat 0%nat); [reflexivity|simpl; lia..].
      * rewrite (Hsamples 1%nat 2%nat); [reflexivity|simpl; lia..].
      * rewrite (Hsamples 2%nat 1%nat); [reflexivity|simpl; lia..].
      * rewrite (Hsamples 3%nat 3%nat); [reflexivity|simpl; lia..].
Defined.

Lemma C9_rectangle_clipped_to_canvas_witness :
  _render_rectangle_layer Examples.small Examples.far_away Examples.far_rectangle
    (np.full 4 4 255)
  = (Ok tt, np.full 4 4 255)
  /\ exists canvas',
      _render_rectangle_layer Examples.small Examples.corner Examples.corner_rectangle
        (np.full 4 4 255)
      = (Ok tt, canvas')
      /\ forall i j : nat,
          np.pixel canvas' i j
          = if ((2 <=? Z.of_nat i) && (Z.of_nat i <? 4))
               && ((0 <=? Z.of_nat j) && (Z.of_nat j <? 2))
            then Some 0
            else np.pixel (np.full 4 4 255) i j.
Proof.
  split.
  - apply (C9_rectangle_clipped_to_canvas Examples.small Examples.far_away
             Examples.far_rectangle (np.full 4 4 255) 1000 1000 4 4).
    + reflexivity.
    + split; [reflexivity|repeat constructor].
    + reflexivity.
    + reflexivity.
    + reflexivity.
    + reflexivity.
    + left. lia.
  - apply (C9_rectangle_clipped_to_canvas Examples.small Examples.corner
             Examples.corner_rectangle (np.full 4 4 255) 0 2 2 4).
    + reflexivity.
    + split; [reflexivity|repeat constructor].
    + reflexivity.
    + reflexivity.
    + reflexivity.
    + reflexivity.
    + lia.
    + lia.
    + reflexivity.
    + simpl. lia.
Defined.

Lemma C10_image_without_source_is_skipped_witness :
  _render_image_layer Examples.no_files Examples.neutral_adjust Examples.unused_dither
    Examples.small Examples.hollow Examples.no_pixels (np.full 4 4 255)
  = (Ok tt, np.full 4 4 255)
  /\ (render Examples.no_files Examples.neutral_adjust Examples.unused_dither
             Examples.blank_font
             (set_layers Examples.small ([Examples.corner] ++ Examples.hollow :: []))
             255 None None).1
     = (render Examples.no_files Examples.neutral_adjust Examples.unused_dither
               Examples.blank_font
               (set_layers Examples.small ([Examples.corner] ++ []))
               255 None None).1.
Proof.
  pose proof (C10_image_without_source_is_skipped
                Examples.no_files Examples.neutral_adjust Examples.unused_dither
                Examples.blank_font Examples.small Examples.hollow Examples.no_pixels) as H.
  destruct H as [Hlayer Hrender].
  - reflexivity.
  - left. reflexivity.
  - split; [apply Hlayer|]. apply Hrender. reflexivity.
Defined.

(** C3: an image layer one column left of the canvas.  The slice of the
    canvas that starts at column -1 is its last column, the image has five
    columns, and the assignment raises: nothing of the layer is drawn and
    [render] does not return. *)
Theorem C3_negative_position_raises image_open adjust dither ink :
  (render image_open adjust dither ink
          (set_layers Examples.small [Examples.left_of_canvas]) 255 None None).1
  = Err ValueError.
Proof. reflexivity. Qed.

(** C6: an image layer that starts at the right edge of the canvas.  The
    resize is asked for a width of 0 and raises before the test that would
    have skipped the blit. *)
Theorem C6_off_canvas_image_raises image_open adjust dither ink :
  (render image_open adjust dither ink
          (set_layers Examples.small [Examples.right_of_canvas]) 255 None None).1
  = Err InvalidDimension.
Proof. reflexivity. Qed.

(** C4, as stated, fails: the scenario does not render to a white grid. *)
Lemma C4_not_white :
  (render Examples.no_files Examples.neutral_adjust Examples.unused_dither
          Examples.blank_font Examples.gray_scene 255 None None).1
  <> Ok (replicate 100 (replicate 100 255)).
Proof. vm_compute. discriminate. Qed.

(** C4 (amended): the scenario renders to a grid in which every pixel is 0:
    a sample of exactly 128 is not above 128 and resolves to black. *)
Theorem C4_mid_gray_threshold_is_black image_open adjust dither ink :
  (render image_open adjust dither ink Examples.gray_scene 255 None None).1
  = Ok (replicate 100 (replicate 100 0)).
Proof. vm_compute. reflexivity. Qed.

(** * More about the composer *)

(** ** Adding, removing and looking up layers *)

Lemma set_layers_twice self ls1 ls2 :
  set_layers (set_layers self ls1) ls2 = set_layers self ls2.
Proof. done. Qed.

Lemma filter_appended layer_id (ls : list Layer.t) new :
  Forall (fun l => Layer.id l ≠ layer_id) ls ->
  Layer.id new = layer_id ->
  filter (fun l => Layer.id l ≠ layer_id) (ls ++ [new]) = ls.
Proof.
  intros Hls Hnew. rewrite list.filter_app, (filter_other_ids _ _ Hls).
  rewrite filter_cons_False by (intros Hne; by apply Hne).
  by rewrite filter_nil, app_nil_r.
Qed.

(** A layer added under an id that no layer bears, then removed by that id:
    the composition is the one before the two calls.  This holds for each of
    the three [add_*_layer] methods. *)
Theorem add_then_remove_restores self layer_id :
  Forall (fun l => Layer.id l ≠ layer_id) (EinkComposer.layers self) ->
  (forall x y width height filled color,
     (remove_layer
        (add_rectangle_layer self layer_id x y width height filled color).2 layer_id).2
     = self)
  /\ (forall text x y color,
        (remove_layer (add_text_layer self layer_id text x y color).2 layer_id).2 = self)
  /\ (forall image_path x y resize_mode dither_mode brightness contrast rotate
             flip_h flip_v crop_x crop_y,
        (remove_layer
           (add_image_layer self layer_id image_path x y resize_mode dither_mode
                            brightness contrast rotate flip_h flip_v crop_x crop_y).2
           layer_id).2
        = self).
Proof.
  intros Hfresh. split_and!; intros; unfold remove_layer; simpl;
    rewrite set_layers_twice, filter_appended by done; apply set_layers_same.
Qed.

Lemma add_then_remove_restores_witness :
  (remove_layer (add_text_layer Examples.two_boxes "title" "HI" 10 10 0).2 "title").2
  = Examples.two_boxes.
Proof.
  apply (add_then_remove_restores Examples.two_boxes "title").
  repeat constructor; discriminate.
Defined.

Lemma change_layer_appended_fresh layer_id change (ls : list Layer.t) new :
  Forall (fun l => Layer.id l ≠ layer_id) ls ->
  Layer.id new = layer_id ->
  change_layer layer_id change (ls ++ [new]) = (true, ls ++ [change new]).
Proof. intros. by apply change_layer_first. Qed.

(** A layer added under an id that no layer bears is the one that
    [update_layer] and [toggle_layer] reach by that id: they return [True],
    change the new layer and leave the others. *)
Theorem added_layer_is_found self layer_id text x y color kwargs :
  Forall (fun l => Layer.id l ≠ layer_id) (EinkComposer.layers self) ->
  toggle_layer (add_text_layer self layer_id text x y color).2 layer_id
  = (true,
     set_layers self
       (EinkComposer.layers self
        ++ [new_TextLayer layer_id false x y (TextLayer.mk text color)]))
  /\ update_layer (add_text_layer self layer_id text x y color).2 layer_id kwargs
     = (true,
        set_layers self
          (EinkComposer.layers self
           ++ [apply_kwargs (new_TextLayer layer_id true x y (TextLayer.mk text color))
                            kwargs])).
Proof.
  intros Hfresh. unfold toggle_layer, update_layer. simpl.
  by rewrite !change_layer_appended_fresh.
Qed.

Lemma added_layer_is_found_witness :
  toggle_layer (add_text_layer Examples.two_boxes "title" "HI" 10 10 0).2 "title"
  = (true,
     set_layers Examples.two_boxes
       (EinkComposer.layers Examples.two_boxes
        ++ [new_TextLayer "title" false 10 10 (TextLayer.mk "HI" 0)])).
Proof.
  apply (added_layer_is_found Examples.two_boxes "title" "HI" 10 10 0 []).
  repeat constructor; discriminate.
Defined.

(** A layer added under an id that a layer already bears cannot be reached
    by that id: [toggle_layer] and [update_layer] change the first layer that
    bore it, and the added layer stays as it was added. *)
Theorem added_duplicate_is_shadowed self layer_id before old after
    x y width height filled color kwargs :
  EinkComposer.layers self = before ++ old :: after ->
  Forall (fun l => Layer.id l ≠ layer_id) before ->
  Layer.id old = layer_id ->
  toggle_layer (add_rectangle_layer self layer_id x y width height filled color).2 layer_id
  = (true,
     set_layers self
       (before ++ toggle_visible old
          :: after ++ [new_RectangleLayer layer_id true x y
                         (RectangleLayer.mk width height filled color)]))
  /\ update_layer (add_rectangle_layer self layer_id x y width height filled color).2
       layer_id kwargs
     = (true,
        set_layers self
          (before ++ apply_kwargs old kwargs
             :: after ++ [new_RectangleLayer layer_id true x y
                            (RectangleLayer.mk width height filled color)])).
Proof.
  intros Hls Hbefore Hid. unfold toggle_layer, update_layer. simpl.
  rewrite Hls, <- app_assoc. simpl.
  by rewrite !(change_layer_first _ _ _ _ _ Hbefore Hid).
Qed.

Lemma added_duplicate_is_shadowed_witness :
  toggle_layer (add_rectangle_layer Examples.two_boxes "box" 1 2 3 4 true 0).2 "box"
  = (true,
     set_layers Examples.two_boxes
       ([] ++ toggle_visible Examples.box_back
           :: [Examples.box_front]
              ++ [new_RectangleLayer "box" true 1 2 (RectangleLayer.mk 3 4 true 0)])).
Proof.
  apply (added_duplicate_is_shadowed Examples.two_boxes "box" [] Examples.box_back
           [Examples.box_front] 1 2 3 4 true 0 []).
  - reflexivity.
  - constructor.
  - reflexivity.
Defined.

(** [remove_layer] removes every layer that bears the id, however many there
    are, and keeps the others in their order; afterwards the id is unknown:
    [update_layer] and [toggle_layer] return [False], and a second
    [remove_layer] changes nothing. *)
Theorem remove_layer_removes_every_match self layer_id :
  Forall (fun l => Layer.id l ≠ layer_id)
         (EinkComposer.layers (remove_layer self layer_id).2)
  /\ (forall l, Layer.id l ≠ layer_id ->
                l ∈ EinkComposer.layers (remove_layer self layer_id).2
                <-> l ∈ EinkComposer.layers self)
  /\ EinkComposer.layers (remove_layer self layer_id).2
       `sublist_of` EinkComposer.layers self
  /\ remove_layer (remove_layer self layer_id).2 layer_id
     = (true, (remove_layer self layer_id).2)
  /\ toggle_layer (remove_layer self layer_id).2 layer_id
     = (false, (remove_layer self layer_id).2)
  /\ forall kwargs,
       update_layer (remove_layer self layer_id).2 layer_id kwargs
       = (false, (remove_layer self layer_id).2).
Proof.
  assert (Hgone : Forall (fun l => Layer.id l ≠ layer_id)
                         (EinkComposer.layers (remove_layer self layer_id).2)).
  { simpl. apply list.Forall_forall. intros l Hl. by apply list_elem_of_filter in Hl as [? _]. }
  split_and!.
  - exact Hgone.
  - intros l Hl. simpl. rewrite list_elem_of_filter. tauto.
  - simpl. apply sublist_filter.
  - by apply remove_layer_unknown.
  - by apply toggle_layer_unknown.
  - intros kwargs. by apply update_layer_unknown.
Qed.

Lemma toggle_visible_twice layer : toggle_visible (toggle_visible layer) = layer.
Proof. destruct layer as [i t v x y c]. unfold toggle_visible. simpl. by rewrite negb_involutive. Qed.

Lemma change_layer_toggle_twice layer_id ls :
  change_layer layer_id toggle_visible (change_layer layer_id toggle_visible ls).2
  = ((change_layer layer_id toggle_visible ls).1, ls).
Proof.
  induction ls as [|l ls IH]; simpl; [done|].
  destruct (String.eqb (Layer.id l) layer_id) eqn:Hid; simpl.
  - change (Layer.id (toggle_visible l)) with (Layer.id l).
    by rewrite Hid, toggle_visible_twice.
  - destruct (change_layer layer_id toggle_visible ls) as [found ls'] eqn:Hrest.
    simpl in *. by rewrite Hid, IH.
Qed.

(** [toggle_layer] twice with the same id: the composition is as before the
    first call, and both calls return the same answer. *)
Theorem toggle_layer_twice self layer_id :
  toggle_layer (toggle_layer self layer_id).2 layer_id
  = ((toggle_layer self layer_id).1, self).
Proof.
  unfold toggle_layer.
  pose proof (change_layer_toggle_twice layer_id (EinkComposer.layers self)) as Htwice.
  destruct (change_layer layer_id toggle_visible (EinkComposer.layers self))
    as [found ls] eqn:Hfirst.
  simpl in *. rewrite Htwice. by rewrite set_layers_twice, set_layers_same.
Qed.

(** ** Keyword arguments of [update_layer] *)

Lemma setattr_without_field layer kv :
  has_field layer kv = false -> setattr_if_has layer kv = layer.
Proof.
  destruct layer as [i t v x y [[]|[]|[]]], kv; simpl; intros Hhas;
    done || discriminate.
Qed.

Lemma apply_kwargs_without_field layer kwargs :
  Forall (fun kv => has_field layer kv = false) kwargs -> apply_kwargs layer kwargs = layer.
Proof.
  unfold apply_kwargs. induction 1 as [|kv kwargs Hkv _ IH]; simpl; [done|].
  by rewrite setattr_without_field.
Qed.

(** Keywords that are fields of another layer class, and not of the class
    of the layer found, are dropped in silence: [update_layer] returns
    [True] and the composition is as it was.  So it is with [width],
    [filled] or [rotate] on a text layer, or [color] on an image layer. *)
Theorem update_layer_drops_foreign_keywords self layer_id kwargs before layer after :
  EinkComposer.layers self = before ++ layer :: after ->
  Forall (fun l => Layer.id l ≠ layer_id) before ->
  Layer.id layer = layer_id ->
  Forall (fun kv => names_field kv = true /\ has_field layer kv = false) kwargs ->
  update_layer self layer_id kwargs = (true, self).
Proof.
  intros Hls Hbefore Hid Hforeign. unfold update_layer.
  rewrite Hls, (change_layer_first _ _ _ _ _ Hbefore Hid).
  rewrite apply_kwargs_without_field.
  - rewrite <- Hls. by rewrite set_layers_same.
  - eapply Forall_impl; [|exact Hforeign]. by intros kv [_ Hkv].
Qed.

Lemma update_layer_drops_foreign_keywords_witness :
  update_layer Examples.titled "title"
    [attr_width 5; attr_filled true; attr_rotate 90; attr_image_path None]
  = (true, Examples.titled).
Proof.
  apply (update_layer_drops_foreign_keywords Examples.titled "title" _ []
           Examples.title []).
  - reflexivity.
  - constructor.
  - reflexivity.
  - repeat constructor.
Defined.






(** ** The layer listing *)

(** [get_layer_info] has one dictionary per layer, in the order of the
    layers, with the id, type, visibility and position of the layer under the
    keys of those names; no dictionary has the pixels of an image layer. *)
Theorem get_layer_info_lists_the_layers self :
  length (get_layer_info self) = length (EinkComposer.layers self)
  /\ forall i layer,
      EinkComposer.layers self !! i = Some layer ->
      exists d,
        get_layer_info self !! i = Some d
        /\ dict_get "id" d = Some (info_str (Layer.id layer))
        /\ dict_get "type" d = Some (info_str (Layer.type layer))
        /\ dict_get "visible" d = Some (info_bool (Layer.visible layer))
        /\ dict_get "x" d = Some (info_int (Layer.x layer))
        /\ dict_get "y" d = Some (info_int (Layer.y layer))
        /\ dict_get "image_data" d = None.
Proof.
  unfold get_layer_info. split; [apply length_fmap|].
  intros i layer Hlayer. rewrite list_lookup_fmap, Hlayer. simpl.
  eexists. split; [reflexivity|].
  unfold layer_info. destruct (Layer.class layer); repeat split; reflexivity.
Qed.

Lemma get_layer_info_lists_the_layers_witness :
  exists d,
    get_layer_info Examples.two_boxes !! 1%nat = Some d
    /\ dict_get "id" d = Some (info_str "box")
    /\ dict_get "x" d = Some (info_int 5).
Proof.
  destruct (proj2 (get_layer_info_lists_the_layers Examples.two_boxes) 1%nat
              Examples.box_front eq_refl) as (d & Hd & Hid & _ & _ & Hx & _).
  exists d. split_and!; [exact Hd|exact Hid|exact Hx].
Defined.

(** ** The canvas across a render *)

Lemma has_shape_row_lengths g h w :
  np.has_shape g h w <-> length <$> g = replicate h w.
Proof.
  unfold np.has_shape. revert h. induction g as [|row g IH]; intros h; simpl.
  - split.
    + by intros [<- _].
    + destruct h; [by split|discriminate].
  - split.
    + intros [<- Hrows]. inversion Hrows as [|? ? Hrow Hrest]; subst. simpl.
      f_equal. by apply IH.
    + destruct h as [|h]; [discriminate|]. simpl. intros [= Hrow Hrest].
      apply IH in Hrest as [Hlen Hrows]. split; [by rewrite Hlen|by constructor].
Qed.

Lemma has_shape_of_same_shape g g' h w :
  np.same_shape g' g -> np.has_shape g h w -> np.has_shape g' h w.
Proof.
  unfold np.same_shape. rewrite !has_shape_row_lengths. by intros ->.
Qed.

Lemma fill_of_shape g h w v :
  np.has_shape g h w -> np.fill g v = np.full (Z.of_nat h) (Z.of_nat w) v.
Proof.
  intros [Hlen Hrows]. unfold np.fill, np.full. rewrite !Nat2Z.id. subst h.
  induction Hrows as [|row g Hrow _ IH]; [done|].
  rewrite fmap_cons. cbn [length replicate]. by rewrite Hrow, IH.
Qed.

Lemma has_shape_full h w v : np.has_shape (np.full (Z.of_nat h) (Z.of_nat w) v) h w.
Proof.
  unfold np.full. rewrite !Nat2Z.id. split.
  - apply length_replicate.
  - apply Forall_replicate, length_replicate.
Qed.

Section MoreRenderingFacts.

Variable image_open : string -> result grid.
Variable adjust_brightness_contrast : grid -> float -> float -> result grid.
Variable floyd_steinberg_dither : grid -> result grid.
Variable text_ink : string -> list (Z * Z).

(** The canvas has its shape after the layers as before them. *)
Lemma for_each_layer_has_shape self ls canvas h w :
  np.has_shape canvas h w ->
  np.has_shape
    (for_each (render_layer image_open adjust_brightness_contrast floyd_steinberg_dither
                            text_ink self) ls canvas).2 h w.
Proof.
  intros Hshape. eapply has_shape_of_same_shape; [|exact Hshape].
  apply keeps_shape_for_each. intros layer. apply render_layer_keeps_shape.
Qed.

(** A composition without layers renders to the background color, a value
    in 0..255, over the whole canvas, and that is what the canvas holds
    afterwards. *)
Theorem render_without_layers self background_color h w :
  EinkComposer.layers self = [] ->
  np.has_shape (EinkComposer.canvas self) h w ->
  0 <= background_color <= 255 ->
  render image_open adjust_brightness_contrast floyd_steinberg_dither text_ink
         self background_color None None
  = (Ok (replicate h (replicate w background_color)),
     set_canvas self (replicate h (replicate w background_color))).
Proof.
  intros Hlayers Hshape Hcolor. unfold render. rewrite Hlayers. simpl.
  rewrite (fill_of_shape _ _ _ _ Hshape). unfold np.full, np.copy.
  by rewrite !Nat2Z.id, uint8_in_range.
Qed.

(** A layer that its renderer skips: the composition renders as it does
    without the layer. *)
Lemma render_without_skipped_layer self layer before after
    background_color final_dither transformations :
  (forall s canvas,
     render_layer image_open adjust_brightness_contrast floyd_steinberg_dither text_ink
                  s layer canvas = (Ok tt, canvas)) ->
  (render image_open adjust_brightness_contrast floyd_steinberg_dither text_ink
          (set_layers self (before ++ layer :: after))
          background_color final_dither transformations).1
  = (render image_open adjust_brightness_contrast floyd_steinberg_dither text_ink
            (set_layers self (before ++ after))
            background_color final_dither transformations).1.
Proof.
  intros Hskip. unfold render.
  rewrite (render_layer_dims image_open adjust_brightness_contrast floyd_steinberg_dither
             text_ink (set_layers self (before ++ layer :: after))
             (set_layers self (before ++ after))) by done.
  destruct self as [w h ls c]. simpl.
  rewrite for_each_skip by apply Hskip.
  by destruct (for_each _ _ _) as [[[]|e] canvas'].
Qed.

(** An invisible layer, of whatever class, is skipped: rendering it raises
    nothing, not even when its image cannot be loaded or resized, and writes
    nothing; the composition renders as it does without the layer. *)
Theorem invisible_layer_is_skipped self layer :
  Layer.visible layer = false ->
  (forall canvas,
     render_layer image_open adjust_brightness_contrast floyd_steinberg_dither text_ink
                  self layer canvas = (Ok tt, canvas))
  /\ forall before after background_color final_dither transformations,
      (render image_open adjust_brightness_contrast floyd_steinberg_dither text_ink
              (set_layers self (before ++ layer :: after))
              background_color final_dither transformations).1
      = (render image_open adjust_brightness_contrast floyd_steinberg_dither text_ink
                (set_layers self (before ++ after))
                background_color final_dither transformations).1.
Proof.
  intros Hvisible.
  assert (Hskip : forall s canvas,
            render_layer image_open adjust_brightness_contrast floyd_steinberg_dither
                         text_ink s layer canvas = (Ok tt, canvas)).
  { intros s canvas. unfold render_layer, _render_image_layer, _render_text_layer,
      _render_rectangle_layer. rewrite Hvisible. by destruct (Layer.class layer). }
  split; [apply Hskip|]. intros. by apply render_without_skipped_layer.
Qed.

(** A text layer with the empty text is skipped, visible or not. *)
Theorem empty_text_layer_is_skipped self layer p :
  Layer.class layer = Text p ->
  TextLayer.text p = EmptyString ->
  (forall canvas,
     render_layer image_open adjust_brightness_contrast floyd_steinberg_dither text_ink
                  self layer canvas = (Ok tt, canvas))
  /\ forall before after background_color final_dither transformations,
      (render image_open adjust_brightness_contrast floyd_steinberg_dither text_ink
              (set_layers self (before ++ layer :: after))
              background_color final_dither transformations).1
      = (render image_open adjust_brightness_contrast floyd_steinberg_dither text_ink
                (set_layers self (before ++ after))
                background_color final_dither transformations).1.
Proof.
  intros Hclass Htext.
  assert (Hskip : forall s canvas,
            render_layer image_open adjust_brightness_contrast floyd_steinberg_dither
                         text_ink s layer canvas = (Ok tt, canvas)).
  { intros s canvas. unfold render_layer, _render_text_layer.
    rewrite Hclass, Htext. simpl. by rewrite orb_true_r. }
  split; [apply Hskip|]. intros. by apply render_without_skipped_layer.
Qed.

(** Without a final dither and without final transformations, what [render]
    returns has the size of the canvas, whatever the layers, and is what the
    canvas holds afterwards. *)
Theorem render_returns_the_canvas self background_color out self' h w :
  np.has_shape (EinkComposer.canvas self) h w ->
  render image_open adjust_brightness_contrast floyd_steinberg_dither text_ink
         self background_color None None = (Ok out, self') ->
  np.has_shape out h w /\ EinkComposer.canvas self' = out
  /\ EinkComposer.layers self' = EinkComposer.layers self.
Proof.
  intros Hshape. unfold render.
  pose proof (for_each_layer_has_shape self (EinkComposer.layers self)
                (np.fill (EinkComposer.canvas self) background_color) h w) as Hafter.
  destruct (for_each _ _ _) as [[[]|e] canvas]; simpl in *; [|discriminate].
  intros [= <- <-]. split_and!; [|done..].
  apply Hafter. eapply has_shape_of_same_shape; [apply fill_same_shape|exact Hshape].
Qed.

(** What the canvas held before a render never shows in it: with a
    background color in 0..255, two composers that differ in the samples of
    the canvas only render alike and end alike. *)
Theorem render_forgets_the_canvas self canvas1 canvas2
    background_color final_dither transformations :
  np.same_shape canvas1 canvas2 ->
  0 <= background_color <= 255 ->
  render image_open adjust_brightness_contrast floyd_steinberg_dither text_ink
         (set_canvas self canvas1) background_color final_dither transformations
  = render image_open adjust_brightness_contrast floyd_steinberg_dither text_ink
           (set_canvas self canvas2) background_color final_dither transformations.
Proof.
  intros Hshape _. unfold render.
  rewrite (render_layer_dims image_open adjust_brightness_contrast floyd_steinberg_dither
             text_ink (set_canvas self canvas1) (set_canvas self canvas2)) by done.
  simpl. by rewrite (fill_of_same_shape _ _ _ Hshape).
Qed.

End MoreRenderingFacts.

(** ** Rectangles, filled and outlined *)

Lemma pixel_outside g h w i j :
  np.has_shape g h w -> np.pixel g i j = None -> (h <= i \/ w <= j)%nat.
Proof.
  intros Hshape Hnone.
  destruct (Nat.lt_ge_cases i h) as [Hi|Hi]; [|by left].
  destruct (Nat.lt_ge_cases j w) as [Hj|Hj]; [|by right].
  destruct (pixel_has_shape g h w i j Hshape Hi Hj) as [v Hv]. congruence.
Qed.

Lemma index_inside n i : 0 <= i < Z.of_nat n -> np.index n i = Ok (Z.to_nat i).
Proof.
  intros Hi. unfold np.index.
  destruct (Z.leb_spec 0 i); [|lia]. destruct (Z.ltb_spec i (Z.of_nat n)); [done|lia].
Qed.

(** The test of [assign_block] along an axis on which the block is the one
    index [a]. *)
Lemma point_test a (i : nat) :
  0 <= a ->
  ((Z.to_nat a <=? i)%nat && (i <? Z.to_nat a + 1)%nat) = (Z.of_nat i =? a).
Proof.
  intros Ha. apply Bool.eq_iff_eq_true.
  rewrite andb_true_iff, Nat.leb_le, Nat.ltb_lt, Z.eqb_eq. lia.
Qed.

Lemma has_shape_assign_block g h w r0 nr c0 nc f :
  np.has_shape g h w -> np.has_shape (np.assign_block g r0 nr c0 nc f) h w.
Proof. apply has_shape_of_same_shape, assign_block_same_shape. Qed.

Lemma setitem_row_scalar_inside g h w y xa xb v :
  np.has_shape g h w -> 0 <= y < Z.of_nat h -> 0 <= xa <= xb -> xb <= Z.of_nat w ->
  np.setitem_row_scalar g y xa xb v
  = Ok (np.assign_block g (Z.to_nat y) 1 (Z.to_nat xa) (Z.to_nat xb - Z.to_nat xa)
                        (fun _ _ => np.uint8 v)).
Proof.
  intros Hshape Hy Hx Hxb. unfold np.setitem_row_scalar.
  assert (Hrows : np.nrows g = h) by apply Hshape.
  rewrite (ncols_has_shape _ _ _ Hshape) by lia.
  rewrite Hrows, index_inside by lia. by rewrite !slice_bound_inside by lia.
Qed.

Lemma setitem_col_scalar_inside g h w ya yb x v :
  np.has_shape g h w -> (0 < h)%nat -> 0 <= x < Z.of_nat w -> 0 <= ya <= yb ->
  yb <= Z.of_nat h ->
  np.setitem_col_scalar g ya yb x v
  = Ok (np.assign_block g (Z.to_nat ya) (Z.to_nat yb - Z.to_nat ya) (Z.to_nat x) 1
                        (fun _ _ => np.uint8 v)).
Proof.
  intros Hshape Hh Hx Hy Hyb. unfold np.setitem_col_scalar.
  assert (Hrows : np.nrows g = h) by apply Hshape.
  rewrite (ncols_has_shape _ _ _ Hshape) by lia.
  rewrite Hrows, index_inside by lia. by rewrite !slice_bound_inside by lia.
Qed.

(** Turn a hypothesis on a boolean test of integers into the order it
    decides. *)
Ltac test_to_order H :=
  first [ apply andb_true_iff in H as [? ?]
        | apply orb_false_iff in H as [? ?]
        | apply andb_false_iff in H as [?|?]
        | apply orb_true_iff in H as [?|?]
        | apply Z.leb_le in H | apply Z.leb_gt in H
        | apply Z.ltb_lt in H | apply Z.ltb_ge in H
        | apply Z.eqb_eq in H | apply Z.eqb_neq in H ].

(** Decide a goal that is a cascade of [if]s over such tests: every branch
    is closed by the orders that lead to it. *)
Ltac compare_all :=
  simpl; repeat case_match; simpl in *;
  repeat match goal with
         | H : _ = true |- _ => test_to_order H
         | H : _ = false |- _ => test_to_order H
         end;
  first [ done | lia ].

(** A visible filled rectangle whose clipped bounds are not empty. *)
Lemma filled_rectangle_pixels self layer p canvas :
  Layer.visible layer = true ->
  RectangleLayer.filled p = true ->
  0 <= RectangleLayer.color p <= 255 ->
  np.has_shape canvas (Z.to_nat (EinkComposer.height self))
               (Z.to_nat (EinkComposer.width self)) ->
  Z.max 0 (Layer.x layer)
  < Z.min (EinkComposer.width self) (Layer.x layer + RectangleLayer.width p) ->
  Z.max 0 (Layer.y layer)
  < Z.min (EinkComposer.height self) (Layer.y layer + RectangleLayer.height p) ->
  exists canvas',
    _render_rectangle_layer self layer p canvas = (Ok tt, canvas')
    /\ forall i j : nat,
        np.pixel canvas' i j
        = if ((Z.max 0 (Layer.y layer) <=? Z.of_nat i)
              && (Z.of_nat i <? Z.min (EinkComposer.height self)
                                      (Layer.y layer + RectangleLayer.height p)))
             && ((Z.max 0 (Layer.x layer) <=? Z.of_nat j)
                 && (Z.of_nat j <? Z.min (EinkComposer.width self)
                                         (Layer.x layer + RectangleLayer.width p)))
          then Some (RectangleLayer.color p)
          else np.pixel canvas i j.
Proof.
  intros Hvisible Hfilled Hcolor Hshape Hx Hy. unfold _render_rectangle_layer.
  rewrite Hvisible, Hfilled. simpl.
  destruct (Z.geb_spec (Z.max 0 (Layer.x layer))
              (Z.min (EinkComposer.width self) (Layer.x layer + RectangleLayer.width p)));
    [lia|].
  destruct (Z.geb_spec (Z.max 0 (Layer.y layer))
              (Z.min (EinkComposer.height self) (Layer.y layer + RectangleLayer.height p)));
    [lia|].
  simpl. unfold write. eexists. split; [reflexivity|].
  intros i j. unfold np.setitem_block_scalar.
  assert (Hrows : np.nrows canvas = Z.to_nat (EinkComposer.height self)) by apply Hshape.
  rewrite (ncols_has_shape _ _ _ Hshape) by lia.
  rewrite pixel_assign_block, Hrows, !slice_bound_inside, !block_test by lia.
  rewrite uint8_in_range by done.
  destruct (np.pixel canvas i j) as [v|] eqn:Hpixel; simpl; [by case_match|].
  apply (pixel_outside _ _ _ _ _ Hshape) in Hpixel. compare_all.
Qed.

(** A visible rectangle that is not filled, with clipped bounds that are not
    empty: the top and bottom rows and the left and right columns of the
    clipped block take its color; the inside of the block and the rest of
    the canvas are as they were. *)
Theorem outlined_rectangle_draws_its_border self layer p canvas x1 y1 x2 y2 :
  Layer.visible layer = true ->
  RectangleLayer.filled p = false ->
  0 <= RectangleLayer.color p <= 255 ->
  np.has_shape canvas (Z.to_nat (EinkComposer.height self))
               (Z.to_nat (EinkComposer.width self)) ->
  x1 = Z.max 0 (Layer.x layer) ->
  y1 = Z.max 0 (Layer.y layer) ->
  x2 = Z.min (EinkComposer.width self) (Layer.x layer + RectangleLayer.width p) ->
  y2 = Z.min (EinkComposer.height self) (Layer.y layer + RectangleLayer.height p) ->
  x1 < x2 -> y1 < y2 ->
  exists canvas',
    _render_rectangle_layer self layer p canvas = (Ok tt, canvas')
    /\ forall i j : nat,
        np.pixel canvas' i j
        = if (((y1 <=? Z.of_nat i) && (Z.of_nat i <? y2))
              && ((x1 <=? Z.of_nat j) && (Z.of_nat j <? x2)))
             && ((Z.of_nat i =? y1) || (Z.of_nat i =? y2 - 1)
                 || (Z.of_nat j =? x1) || (Z.of_nat j =? x2 - 1))
          then Some (RectangleLayer.color p)
          else np.pixel canvas i j.
Proof.
  intros Hvisible Hfilled Hcolor Hshape Hx1 Hy1 Hx2 Hy2 Hx Hy.
  unfold _render_rectangle_layer. rewrite Hvisible, Hfilled. simpl.
  rewrite <- Hx1, <- Hy1, <- Hx2, <- Hy2.
  destruct (Z.geb_spec x1 x2); [lia|]. destruct (Z.geb_spec y1 y2); [lia|]. simpl.
  set (h := Z.to_nat (EinkComposer.height self)) in *.
  set (w := Z.to_nat (EinkComposer.width self)) in *.
  assert (Hbounds : 0 <= x1 /\ x2 <= Z.of_nat w /\ 0 <= y1 /\ y2 <= Z.of_nat h) by lia.
  clear Hx1 Hy1 Hx2 Hy2. destruct Hbounds as (Hx1 & Hx2 & Hy1 & Hy2).
  unfold mbind, M_bind, write.
  rewrite (setitem_row_scalar_inside _ h w) by (done || lia).
  set (top := np.assign_block canvas _ _ _ _ _).
  assert (Htop : np.has_shape top h w) by by apply has_shape_assign_block.
  rewrite (setitem_row_scalar_inside _ h w) by (done || lia).
  set (bottom := np.assign_block top _ _ _ _ _).
  assert (Hbottom : np.has_shape bottom h w) by by apply has_shape_assign_block.
  rewrite (setitem_col_scalar_inside _ h w) by (done || lia).
  set (left := np.assign_block bottom _ _ _ _ _).
  assert (Hleft : np.has_shape left h w) by by apply has_shape_assign_block.
  rewrite (setitem_col_scalar_inside _ h w) by (done || lia).
  eexists. split; [reflexivity|].
  intros i j. subst left bottom top.
  rewrite !pixel_assign_block, !block_test, !point_test by lia.
  rewrite uint8_in_range by done.
  destruct (np.pixel canvas i j) as [v|] eqn:Hpixel; simpl.
  - compare_all.
  - apply (pixel_outside _ _ _ _ _ Hshape) in Hpixel. compare_all.
Qed.

(** ** Paint order, and images of the size of their target *)

Section PaintingFacts.

Variable image_open : string -> result grid.
Variable adjust_brightness_contrast : grid -> float -> float -> result grid.
Variable floyd_steinberg_dither : grid -> result grid.
Variable text_ink : string -> list (Z * Z).

(** The last layer is painted over the others: when the layers before it
    render to [under], a visible filled rectangle added last gives its color
    to the pixels of its clipped block, and every other pixel is the one of
    [under]. *)
Theorem last_rectangle_is_painted_on_top self before layer p background_color under :
  Layer.class layer = Rectangle p ->
  Layer.visible layer = true ->
  RectangleLayer.filled p = true ->
  0 <= RectangleLayer.color p <= 255 ->
  np.has_shape (EinkComposer.canvas self) (Z.to_nat (EinkComposer.height self))
               (Z.to_nat (EinkComposer.width self)) ->
  Z.max 0 (Layer.x layer)
  < Z.min (EinkComposer.width self) (Layer.x layer + RectangleLayer.width p) ->
  Z.max 0 (Layer.y layer)
  < Z.min (EinkComposer.height self) (Layer.y layer + RectangleLayer.height p) ->
  (render image_open adjust_brightness_contrast floyd_steinberg_dither text_ink
          (set_layers self before) background_color None None).1 = Ok under ->
  exists out,
    (render image_open adjust_brightness_contrast floyd_steinberg_dither text_ink
            (set_layers self (before ++ [layer])) background_color None None).1 = Ok out
    /\ forall i j : nat,
        np.pixel out i j
        = if ((Z.max 0 (Layer.y layer) <=? Z.of_nat i)
              && (Z.of_nat i <? Z.min (EinkComposer.height self)
                                      (Layer.y layer + RectangleLayer.height p)))
             && ((Z.max 0 (Layer.x layer) <=? Z.of_nat j)
                 && (Z.of_nat j <? Z.min (EinkComposer.width self)
                                         (Layer.x layer + RectangleLayer.width p)))
          then Some (RectangleLayer.color p)
          else np.pixel under i j.
Proof.
  intros Hclass Hvisible Hfilled Hcolor Hshape Hx Hy. unfold render.
  rewrite (render_layer_dims image_open adjust_brightness_contrast floyd_steinberg_dither
             text_ink (set_layers self (before ++ [layer])) self) by done.
  rewrite (render_layer_dims image_open adjust_brightness_contrast floyd_steinberg_dither
             text_ink (set_layers self before) self) by done.
  change (EinkComposer.layers (set_layers self ?ls)) with ls.
  change (EinkComposer.canvas (set_layers self _)) with (EinkComposer.canvas self).
  rewrite for_each_app.
  pose proof (for_each_layer_has_shape image_open adjust_brightness_contrast
                floyd_steinberg_dither text_ink self before
                (np.fill (EinkComposer.canvas self) background_color) _ _
                (has_shape_of_same_shape _ _ _ _ (fill_same_shape _ _) Hshape)) as Hunder.
  destruct (for_each _ before _) as [[[]|e] canvas]; simpl in *; [|discriminate].
  intros [= <-]. unfold mbind, M_bind, render_layer. rewrite Hclass.
  destruct (filled_rectangle_pixels self layer p canvas Hvisible Hfilled Hcolor Hunder Hx Hy)
    as (canvas' & -> & Hpixels).
  simpl. by exists canvas'.
Qed.

(** A visible in-memory image that has the size of its target already, with
    no flip, no rotation, neutral brightness and contrast and no dithering:
    rendering the layer is the blit of the image as it is. *)
Lemma image_of_target_size_is_blitted self layer path img mode crop_x crop_y canvas :
  Layer.visible layer = true ->
  np.shape img = (EinkComposer.height self - Layer.y layer,
                  EinkComposer.width self - Layer.x layer) ->
  _render_image_layer image_open adjust_brightness_contrast floyd_steinberg_dither
    self layer
    (ImageLayer.mk path (Some img) mode dithering.NoDither 1%float 0%float 0
                   false false crop_x crop_y)
    canvas
  = composite self layer img canvas.
Proof.
  intros Hvisible Hsize. unfold _render_image_layer. rewrite Hvisible. simpl.
  unfold mbind at 1. unfold M_bind at 1. unfold lift at 1. simpl.
  unfold draw_image, apply_transformations, resize_to_target. simpl.
  rewrite Hsize. unfold np.shape_neq. simpl. rewrite !Z.eqb_refl. simpl.
  reflexivity.
Qed.

Lemma uint8_pixel_in_range img i j :
  np.in_range img -> np.uint8 <$> np.pixel img i j = np.pixel img i j.
Proof.
  intros Hrange. unfold np.pixel.
  destruct (img !! i) as [row|] eqn:Hrow; simpl; [|done].
  destruct (row !! j) as [v|] eqn:Hv; simpl; [|done].
  unfold np.in_range in Hrange. rewrite list.Forall_forall in Hrange.
  specialize (Hrange row (list_elem_of_lookup_2 _ _ _ Hrow)).
  rewrite list.Forall_forall in Hrange.
  by rewrite (uint8_in_range v (Hrange v (list_elem_of_lookup_2 _ _ _ Hv))).
Qed.

(** Such an image, of samples in 0..255, at a position inside the canvas, is
    copied over the canvas from (x, y) to the bottom-right corner, sample
    for sample; the rest of the canvas is as it was. *)
Theorem image_of_target_size_is_copied self layer path img mode crop_x crop_y canvas :
  Layer.visible layer = true ->
  np.in_range img ->
  np.has_shape canvas (Z.to_nat (EinkComposer.height self))
               (Z.to_nat (EinkComposer.width self)) ->
  np.has_shape img (Z.to_nat (EinkComposer.height self - Layer.y layer))
               (Z.to_nat (EinkComposer.width self - Layer.x layer)) ->
  0 <= Layer.x layer < EinkComposer.width self ->
  0 <= Layer.y layer < EinkComposer.height self ->
  exists canvas',
    _render_image_layer image_open adjust_brightness_contrast floyd_steinberg_dither
      self layer
      (ImageLayer.mk path (Some img) mode dithering.NoDither 1%float 0%float 0
                     false false crop_x crop_y)
      canvas
    = (Ok tt, canvas')
    /\ forall i j : nat,
        np.pixel canvas' i j
        = if ((Layer.y layer <=? Z.of_nat i) && (Z.of_nat i <? EinkComposer.height self))
             && ((Layer.x layer <=? Z.of_nat j) && (Z.of_nat j <? EinkComposer.width self))
          then np.pixel img (i - Z.to_nat (Layer.y layer)) (j - Z.to_nat (Layer.x layer))
          else np.pixel canvas i j.
Proof.
  intros Hvisible Hrange Hcanvas Himg Hx Hy.
  rewrite image_of_target_size_is_blitted; [|done|].
  - destruct (composite_inside_canvas self layer img canvas Hcanvas Himg Hx Hy)
      as (canvas' & Hblit & Hpixels).
    exists canvas'. split; [exact Hblit|].
    intros i j. by rewrite Hpixels, uint8_pixel_in_range.
  - unfold np.shape. rewrite (ncols_has_shape _ _ _ Himg) by lia.
    destruct Himg as [Hlen _]. unfold np.nrows. rewrite Hlen. f_equal; lia.
Qed.

(** Such an image, at a position left of the canvas or above it: the slice
    of the canvas that starts at the negative index is not the size of the
    image, and rendering the layer raises; the canvas is as it was. *)
Theorem image_at_negative_position_raises self layer path img mode crop_x crop_y canvas :
  Layer.visible layer = true ->
  np.has_shape canvas (Z.to_nat (EinkComposer.height self))
               (Z.to_nat (EinkComposer.width self)) ->
  np.has_shape img (Z.to_nat (EinkComposer.height self - Layer.y layer))
               (Z.to_nat (EinkComposer.width self - Layer.x layer)) ->
  0 < EinkComposer.width self -> 0 < EinkComposer.height self ->
  Layer.x layer < EinkComposer.width self ->
  Layer.y layer < EinkComposer.height self ->
  Layer.x layer < 0 \/ Layer.y layer < 0 ->
  _render_image_layer image_open adjust_brightness_contrast floyd_steinberg_dither
    self layer
    (ImageLayer.mk path (Some img) mode dithering.NoDither 1%float 0%float 0
                   false false crop_x crop_y)
    canvas
  = (Err ValueError, canvas).
Proof.
  intros Hvisible Hcanvas Himg Hw Hh Hx Hy Hneg.
  rewrite image_of_target_size_is_blitted; [by apply composite_negative_position|done|].
  unfold np.shape. rewrite (ncols_has_shape _ _ _ Himg) by lia.
  destruct Himg as [Hlen _]. unfold np.nrows. rewrite Hlen. f_equal; lia.
Qed.

End PaintingFacts.

(** ** Concrete compositions, continued *)

Lemma render_without_layers_witness :
  render Examples.no_files Examples.neutral_adjust Examples.unused_dither
         Examples.blank_font Examples.small 0 None None
  = (Ok (replicate 4 (replicate 4 0)),
     set_canvas Examples.small (replicate 4 (replicate 4 0))).
Proof.
  apply (render_without_layers Examples.no_files Examples.neutral_adjust
           Examples.unused_dither Examples.blank_font Examples.small 0 4%nat 4%nat).
  - reflexivity.
  - split; [reflexivity|repeat constructor].
  - lia.
Defined.

Lemma invisible_layer_is_skipped_witness :
  (render Examples.no_files Examples.neutral_adjust Examples.unused_dither
          Examples.blank_font
          (set_layers Examples.small ([Examples.corner] ++ Examples.hidden :: []))
          255 None None).1
  = (render Examples.no_files Examples.neutral_adjust Examples.unused_dither
            Examples.blank_font
            (set_layers Examples.small ([Examples.corner] ++ []))
            255 None None).1.
Proof.
  apply (invisible_layer_is_skipped Examples.no_files Examples.neutral_adjust
           Examples.unused_dither Examples.blank_font Examples.small Examples.hidden).
  reflexivity.
Defined.

Lemma empty_text_layer_is_skipped_witness :
  (render Examples.no_files Examples.neutral_adjust Examples.unused_dither
          Examples.blank_font
          (set_layers Examples.small ([Examples.corner] ++ Examples.blank :: []))
          255 None None).1
  = (render Examples.no_files Examples.neutral_adjust Examples.unused_dither
            Examples.blank_font
            (set_layers Examples.small ([Examples.corner] ++ []))
            255 None None).1.
Proof.
  apply (empty_text_layer_is_skipped Examples.no_files Examples.neutral_adjust
           Examples.unused_dither Examples.blank_font Examples.small Examples.blank
           Examples.blank_text).
  - reflexivity.
  - reflexivity.
Defined.

Lemma render_returns_the_canvas_witness :
  np.has_shape Examples.under_patch 4 4
  /\ EinkComposer.canvas
       (set_canvas (set_layers Examples.small [Examples.corner]) Examples.under_patch)
     = Examples.under_patch
  /\ EinkComposer.layers
       (set_canvas (set_layers Examples.small [Examples.corner]) Examples.under_patch)
     = EinkComposer.layers (set_layers Examples.small [Examples.corner]).
Proof.
  apply (render_returns_the_canvas Examples.no_files Examples.neutral_adjust
           Examples.unused_dither Examples.blank_font
           (set_layers Examples.small [Examples.corner]) 255).
  - split; [reflexivity|repeat constructor].
  - reflexivity.
Defined.

Lemma render_forgets_the_canvas_witness :
  render Examples.no_files Examples.neutral_adjust Examples.unused_dither
         Examples.blank_font
         (set_canvas (set_layers Examples.small [Examples.patch]) Examples.under_patch)
         255 None None
  = render Examples.no_files Examples.neutral_adjust Examples.unused_dither
           Examples.blank_font
           (set_canvas (set_layers Examples.small [Examples.patch]) (np.full 4 4 0))
           255 None None.
Proof.
  apply (render_forgets_the_canvas Examples.no_files Examples.neutral_adjust
           Examples.unused_dither Examples.blank_font).
  - reflexivity.
  - lia.
Defined.

Lemma outlined_rectangle_draws_its_border_witness :
  exists canvas',
    _render_rectangle_layer Examples.small Examples.outline Examples.outline_rectangle
      (np.full 4 4 255)
    = (Ok tt, canvas')
    /\ forall i j : nat,
        np.pixel canvas' i j
        = if (((0 <=? Z.of_nat i) && (Z.of_nat i <? 3))
              && ((1 <=? Z.of_nat j) && (Z.of_nat j <? 4)))
             && ((Z.of_nat i =? 0) || (Z.of_nat i =? 3 - 1)
                 || (Z.of_nat j =? 1) || (Z.of_nat j =? 4 - 1))
          then Some 0
          else np.pixel (np.full 4 4 255) i j.
Proof.
  apply (outlined_rectangle_draws_its_border Examples.small Examples.outline
           Examples.outline_rectangle (np.full 4 4 255) 1 0 4 3).
  - reflexivity.
  - reflexivity.
  - simpl. lia.
  - split; [reflexivity|repeat constructor].
  - reflexivity.
  - reflexivity.
  - reflexivity.
  - reflexivity.
  - lia.
  - lia.
Defined.

Lemma last_rectangle_is_painted_on_top_witness :
  exists out,
    (render Examples.no_files Examples.neutral_adjust Examples.unused_dither
            Examples.blank_font
            (set_layers Examples.small ([Examples.corner] ++ [Examples.patch]))
            255 None None).1 = Ok out
    /\ forall i j : nat,
        np.pixel out i j
        = if ((Z.max 0 1 <=? Z.of_nat i) && (Z.of_nat i <? Z.min 4 (1 + 2)))
             && ((Z.max 0 1 <=? Z.of_nat j) && (Z.of_nat j <? Z.min 4 (1 + 2)))
          then Some 255
          else np.pixel Examples.under_patch i j.
Proof.
  apply (last_rectangle_is_painted_on_top Examples.no_files Examples.neutral_adjust
           Examples.unused_dither Examples.blank_font Examples.small [Examples.corner]
           Examples.patch Examples.patch_rectangle 255 Examples.under_patch).
  - reflexivity.
  - reflexivity.
  - reflexivity.
  - simpl. lia.
  - split; [reflexivity|repeat constructor].
  - simpl. lia.
  - simpl. lia.
  - reflexivity.
Defined.

Lemma image_of_target_size_is_copied_witness :
  exists canvas',
    _render_image_layer Examples.no_files Examples.neutral_adjust Examples.unused_dither
      Examples.small Examples.photo Examples.photo_pixels (np.full 4 4 255)
    = (Ok tt, canvas')
    /\ forall i j : nat,
        np.pixel canvas' i j
        = if ((2 <=? Z.of_nat i) && (Z.of_nat i <? 4))
             && ((1 <=? Z.of_nat j) && (Z.of_nat j <? 4))
          then np.pixel Examples.photo_data (i - Z.to_nat 2) (j - Z.to_nat 1)
          else np.pixel (np.full 4 4 255) i j.
Proof.
  apply (image_of_target_size_is_copied Examples.no_files Examples.neutral_adjust
           Examples.unused_dither Examples.small Examples.photo None Examples.photo_data
           image_ops.Fit None None (np.full 4 4 255)).
  - reflexivity.
  - repeat first [apply Forall_nil_2 | apply Forall_cons_2 | lia].
  - split; [reflexivity|repeat constructor].
  - split; [reflexivity|repeat constructor].
  - simpl. lia.
  - simpl. lia.
Defined.

Lemma image_at_negative_position_raises_witness :
  _render_image_layer Examples.no_files Examples.neutral_adjust Examples.unused_dither
    Examples.small Examples.left_of_canvas Examples.left_pixels (np.full 4 4 255)
  = (Err ValueError, np.full 4 4 255).
Proof.
  apply (image_at_negative_position_raises Examples.no_files Examples.neutral_adjust
           Examples.unused_dither Examples.small Examples.left_of_canvas None
           (replicate 4 [0; 0; 0; 0; 0]) image_ops.Stretch None None (np.full 4 4 255)).
  - reflexivity.
  - split; [reflexivity|repeat constructor].
  - split; [reflexivity|repeat constructor].
  - simpl. lia.
  - simpl. lia.
  - simpl. lia.
  - simpl. lia.
  - left. simpl. lia.
Defined.

(** ** Rectangles never raise *)

(** The writes of a rectangle layer all return, and keep the shape of the
    canvas. *)
Lemma rectangle_layer_returns self layer p canvas :
  np.has_shape canvas (Z.to_nat (EinkComposer.height self))
               (Z.to_nat (EinkComposer.width self)) ->
  exists canvas',
    _render_rectangle_layer self layer p canvas = (Ok tt, canvas')
    /\ np.has_shape canvas' (Z.to_nat (EinkComposer.height self))
                    (Z.to_nat (EinkComposer.width self)).
Proof.
  intros Hshape. unfold _render_rectangle_layer.
  destruct (Layer.visible layer); simpl; [|by eexists].
  set (x1 := Z.max 0 (Layer.x layer)). set (y1 := Z.max 0 (Layer.y layer)).
  set (x2 := Z.min (EinkComposer.width self) (Layer.x layer + RectangleLayer.width p)).
  set (y2 := Z.min (EinkComposer.height self) (Layer.y layer + RectangleLayer.height p)).
  destruct (Z.geb_spec x1 x2); simpl; [by eexists|].
  destruct (Z.geb_spec y1 y2); simpl; [by eexists|].
  destruct (RectangleLayer.filled p).
  { eexists. split; [reflexivity|]. by apply has_shape_assign_block. }
  set (h := Z.to_nat (EinkComposer.height self)) in *.
  set (w := Z.to_nat (EinkComposer.width self)) in *.
  assert (Hbounds : 0 <= x1 /\ x2 <= Z.of_nat w /\ 0 <= y1 /\ y2 <= Z.of_nat h) by lia.
  destruct Hbounds as (Hx1 & Hx2 & Hy1 & Hy2).
  unfold mbind, M_bind, write.
  rewrite (setitem_row_scalar_inside _ h w) by (done || lia).
  set (top := np.assign_block canvas _ _ _ _ _).
  assert (Htop : np.has_shape top h w) by by apply has_shape_assign_block.
  rewrite (setitem_row_scalar_inside _ h w) by (done || lia).
  set (bottom := np.assign_block top _ _ _ _ _).
  assert (Hbottom : np.has_shape bottom h w) by by apply has_shape_assign_block.
  rewrite (setitem_col_scalar_inside _ h w) by (done || lia).
  set (left := np.assign_block bottom _ _ _ _ _).
  assert (Hleft : np.has_shape left h w) by by apply has_shape_assign_block.
  rewrite (setitem_col_scalar_inside _ h w) by (done || lia).
  eexists. split; [reflexivity|]. by apply has_shape_assign_block.
Qed.

(** Drawing a rectangle of a color in 0..255 raises nothing, wherever it
    lies and whatever its size, sign of width and height included, filled or
    outlined, on a canvas of the size of the composer: the clipped bounds are
    valid indices.  The canvas keeps its size. *)
Theorem rectangle_layer_never_raises self layer p canvas :
  np.has_shape canvas (Z.to_nat (EinkComposer.height self))
               (Z.to_nat (EinkComposer.width self)) ->
  0 <= RectangleLayer.color p <= 255 ->
  exists canvas',
    _render_rectangle_layer self layer p canvas = (Ok tt, canvas')
    /\ np.has_shape canvas' (Z.to_nat (EinkComposer.height self))
                    (Z.to_nat (EinkComposer.width self)).
Proof. intros Hshape _. by apply rectangle_layer_returns. Qed.

Lemma rectangle_layer_never_raises_witness :
  exists canvas',
    _render_rectangle_layer Examples.small Examples.outline Examples.outline_rectangle
      (np.full 4 4 255)
    = (Ok tt, canvas')
    /\ np.has_shape canvas' 4 4.
Proof.
  apply (rectangle_layer_never_raises Examples.small Examples.outline
           Examples.outline_rectangle (np.full 4 4 255)).
  - split; [reflexivity|repeat constructor].
  - simpl. lia.
Defined.

Section RectangleCompositions.

Variable image_open : string -> result grid.
Variable adjust_brightness_contrast : grid -> float -> float -> result grid.
Variable floyd_steinberg_dither : grid -> result grid.
Variable text_ink : string -> list (Z * Z).

Lemma for_each_rectangle_returns self ls canvas :
  np.has_shape canvas (Z.to_nat (EinkComposer.height self))
               (Z.to_nat (EinkComposer.width self)) ->
  Forall (fun l => Layer.visible l = false
                   \/ exists p, Layer.class l = Rectangle p
                                /\ 0 <= RectangleLayer.color p <= 255) ls ->
  exists canvas',
    for_each (render_layer image_open adjust_brightness_contrast floyd_steinberg_dither
                           text_ink self) ls canvas
    = (Ok tt, canvas').
Proof.
  intros Hshape Hls. revert canvas Hshape.
  induction Hls as [|l ls Hl _ IH]; intros canvas Hshape; simpl; [by eexists|].
  unfold mbind, M_bind.
  assert (Hstep : exists canvas1,
             render_layer image_open adjust_brightness_contrast floyd_steinberg_dither
                          text_ink self l canvas = (Ok tt, canvas1)).
  { destruct Hl as [Hhidden|(p & Hclass & _)].
    - exists canvas. unfold render_layer, _render_image_layer, _render_text_layer,
        _render_rectangle_layer. rewrite Hhidden. by destruct (Layer.class l).
    - unfold render_layer. rewrite Hclass.
      destruct (rectangle_layer_returns self l p canvas Hshape) as (canvas1 & H1 & _).
      by exists canvas1. }
  destruct Hstep as [canvas1 Hstep].
  pose proof (render_layer_keeps_shape image_open adjust_brightness_contrast
                floyd_steinberg_dither text_ink self l canvas) as Hkeeps.
  rewrite Hstep in *. simpl in Hkeeps.
  apply IH. by eapply has_shape_of_same_shape.
Qed.

(** A composition in which every visible layer is a rectangle of a color in
    0..255 always renders over a background in 0..255: [render] returns a
    grid of the size of the canvas, whatever the positions and sizes of the
    rectangles. *)
Theorem rectangles_always_render self background_color :
  np.has_shape (EinkComposer.canvas self) (Z.to_nat (EinkComposer.height self))
               (Z.to_nat (EinkComposer.width self)) ->
  0 <= background_color <= 255 ->
  Forall (fun l => Layer.visible l = false
                   \/ exists p, Layer.class l = Rectangle p
                                /\ 0 <= RectangleLayer.color p <= 255)
         (EinkComposer.layers self) ->
  exists out,
    render image_open adjust_brightness_contrast floyd_steinberg_dither text_ink
           self background_color None None
    = (Ok out, set_canvas self out)
    /\ np.has_shape out (Z.to_nat (EinkComposer.height self))
                    (Z.to_nat (EinkComposer.width self)).
Proof.
  intros Hshape _ Hls. unfold render.
  assert (Hfilled : np.has_shape (np.fill (EinkComposer.canvas self) background_color)
                      (Z.to_nat (EinkComposer.height self))
                      (Z.to_nat (EinkComposer.width self))).
  { eapply has_shape_of_same_shape; [apply fill_same_shape|exact Hshape]. }
  destruct (for_each_rectangle_returns self _ _ Hfilled Hls) as [canvas' Hrun].
  pose proof (for_each_layer_has_shape image_open adjust_brightness_contrast
                floyd_steinberg_dither text_ink self (EinkComposer.layers self) _ _ _
                Hfilled) as Hafter.
  rewrite Hrun in *. simpl in *. by exists canvas'.
Qed.

End RectangleCompositions.

Lemma rectangles_always_render_witness :
  exists out,
    render Examples.no_files Examples.neutral_adjust Examples.unused_dither
           Examples.blank_font Examples.three_rectangles 255 None None
    = (Ok out, set_canvas Examples.three_rectangles out)
    /\ np.has_shape out 4 4.
Proof.
  apply (rectangles_always_render Examples.no_files Examples.neutral_adjust
           Examples.unused_dither Examples.blank_font Examples.three_rectangles 255).
  - split; [reflexivity|repeat constructor].
  - lia.
  - simpl.
    repeat (apply Forall_cons_2;
            [right; eexists; split; [reflexivity|simpl; lia]|]).
    apply Forall_nil_2.
Defined.
